(** * The Ollama adapter of gemini-cli: a shallow embedding and its properties

    Sources embedded here:
    - [packages/core/src/core/ollamaConverter.ts]  (schema converter),
    - [packages/core/src/core/ollamaTokenizer.ts]  (token estimators),
    - [packages/core/src/core/ollamaContentGenerator.ts] (adapter facade and
      streaming decoder).

    Conventions.  A JavaScript string is a Stdlib [string]; one [ascii] stands
    for one UTF-16 code unit, so the model covers the code units below 256.
    An optional field [f?: T] is an [option T]; [undefined] is [None].
    A thrown exception is the left summand of a [sum]. *)

From Stdlib Require Import String Ascii List ZArith QArith Qround Bool Lia Lqa.
From Stdlib Require Import Strings.Byte.
From Stdlib Require Import Numbers.DecimalString.
Import ListNotations.
Set Warnings "-register-all".
Close Scope Q_scope.
Open Scope list_scope.
Open Scope string_scope.

(* ================================================================== *)
(** * Part I: definitions *)
(* ================================================================== *)

(** ** JavaScript string primitives used by the sources *)

Module JS.

(** The double quote, written by code so that literals stay readable. *)
Definition dquote : ascii := ascii_of_nat 34.
Definition backslash : ascii := ascii_of_nat 92.
Definition newline : ascii := ascii_of_nat 10.

(** [q s] is [s] with every apostrophe turned into a double quote: JSON
    texts are written with apostrophes in the examples below. *)
Fixpoint q (s : string) : string :=
  match s with
  | EmptyString => EmptyString
  | String c r => String (if Ascii.eqb c "'" then dquote else c) (q r)
  end.

(** ECMAScript [WhiteSpace] and [LineTerminator] code units below 256:
    TAB, LF, VT, FF, CR, SP and NBSP.  This is the class [\s] of a regular
    expression and the set removed by [String.prototype.trim]. *)
Definition is_space (c : ascii) : bool :=
  let n := nat_of_ascii c in
  ((9 <=? n) && (n <=? 13) || (n =? 32) || (n =? 160))%nat.

Definition is_empty (s : string) : bool :=
  match s with EmptyString => true | _ => false end.

Fixpoint trimStart (s : string) : string :=
  match s with
  | String c r => if is_space c then trimStart r else s
  | EmptyString => EmptyString
  end.

Fixpoint trimEnd (s : string) : string :=
  match s with
  | EmptyString => EmptyString
  | String c r =>
      let r' := trimEnd r in
      if is_space c && is_empty r' then EmptyString else String c r'
  end.

(** [s.trim()] *)
Definition trim (s : string) : string := trimEnd (trimStart s).

(** [s.split(sep)] for a one-character separator: never the empty list. *)
Fixpoint split (sep : ascii) (s : string) : list string :=
  match s with
  | EmptyString => [EmptyString]
  | String c r =>
      if Ascii.eqb c sep then EmptyString :: split sep r
      else match split sep r with
           | h :: t => String c h :: t
           | [] => [String c EmptyString]
           end
  end.

(** [a.join(sep)] *)
Definition join (sep : string) (a : list string) : string := String.concat sep a.

(** [s.startsWith(p)] *)
Definition startsWith (s p : string) : bool := String.prefix p s.

(** [s.includes(t)] *)
Fixpoint includes (s t : string) : bool :=
  if String.prefix t s then true
  else match s with
       | EmptyString => false
       | String _ r => includes r t
       end.

(** [s.replace(/\/$/, '')]: one trailing slash removed. *)
Fixpoint stripTrailingSlash (s : string) : string :=
  match s with
  | EmptyString => EmptyString
  | String c r =>
      if Ascii.eqb c "/" && is_empty r then EmptyString
      else String c (stripTrailingSlash r)
  end.

(** Truthiness of an optional string: [undefined] and [''] are falsy. *)
Definition truthy (o : option string) : bool :=
  match o with Some s => negb (is_empty s) | None => false end.

(** Decimal rendering of an integer, as in a template literal. *)
Definition string_of_Z (z : Z) : string := NilEmpty.string_of_int (Z.to_int z).

End JS.

(** ** JSON values, [JSON.stringify] and [JSON.parse]

    The platform's JSON is not part of the repository.  The decoder is proved
    correct for every parser (Section [Streaming] below); this module gives a
    concrete one for the examples.  It covers the JSON grammar with integer
    numbers and with escapes of code units below 256; a text outside that
    fragment is outside the model. *)

Module Json.

Inductive t : Type :=
| Null
| Bool (b : bool)
| Number (n : Z)
| Str (s : string)
| Array (l : list t)
| Object (m : list (string * t)).

(** Property read [o[k]] on a parsed object: the last binding wins. *)
Fixpoint get (k : string) (m : list (string * t)) : option t :=
  match m with
  | [] => None
  | (k', v) :: r =>
      match get k r with
      | Some w => Some w
      | None => if String.eqb k k' then Some v else None
      end
  end.

Definition field (k : string) (v : t) : option t :=
  match v with Object m => get k m | _ => None end.

(** *** Serialisation *)

Definition hex_digit (n : nat) : ascii :=
  ascii_of_nat (if (n <? 10)%nat then 48 + n else 87 + n).

Definition escape_char (c : ascii) : string :=
  let n := nat_of_ascii c in
  if Ascii.eqb c JS.dquote then String JS.backslash (String JS.dquote "")
  else if Ascii.eqb c JS.backslash then String JS.backslash (String JS.backslash "")
  else if (n =? 8)%nat then String JS.backslash "b"
  else if (n =? 9)%nat then String JS.backslash "t"
  else if (n =? 10)%nat then String JS.backslash "n"
  else if (n =? 12)%nat then String JS.backslash "f"
  else if (n =? 13)%nat then String JS.backslash "r"
  else if (n <? 32)%nat then
    String JS.backslash
      ("u00" ++ String (hex_digit (n / 16)) (String (hex_digit (n mod 16)) ""))
  else String c "".

Fixpoint escape (s : string) : string :=
  match s with
  | EmptyString => EmptyString
  | String c r => escape_char c ++ escape r
  end.

Definition quote (s : string) : string :=
  String JS.dquote (escape s ++ String JS.dquote "").

Fixpoint stringify (v : t) : string :=
  match v with
  | Null => "null"
  | Bool true => "true"
  | Bool false => "false"
  | Number n => JS.string_of_Z n
  | Str s => quote s
  | Array l => "[" ++ JS.join "," (map stringify l) ++ "]"
  | Object m =>
      "{" ++ JS.join "," (map (fun kv => quote (fst kv) ++ ":" ++ stringify (snd kv)) m)
          ++ "}"
  end.

(** *** Parsing *)

(** JSON white space: SP, TAB, LF, CR. *)
Definition is_ws (c : ascii) : bool :=
  let n := nat_of_ascii c in
  ((n =? 32) || (n =? 9) || (n =? 10) || (n =? 13))%nat.

Fixpoint skip_ws (s : string) : string :=
  match s with
  | String c r => if is_ws c then skip_ws r else s
  | EmptyString => EmptyString
  end.

Definition digit_val (c : ascii) : option Z :=
  let n := nat_of_ascii c in
  if ((48 <=? n) && (n <=? 57))%nat then Some (Z.of_nat (n - 48)) else None.

Definition hex_val (c : ascii) : option nat :=
  let n := nat_of_ascii c in
  if ((48 <=? n) && (n <=? 57))%nat then Some (n - 48)
  else if ((97 <=? n) && (n <=? 102))%nat then Some (n - 87)
  else if ((65 <=? n) && (n <=? 70))%nat then Some (n - 55)
  else None.

(** Digits after the first one of an integer. *)
Fixpoint parse_digits (acc : Z) (s : string) : Z * string :=
  match s with
  | String c r =>
      match digit_val c with
      | Some d => parse_digits (10 * acc + d) r
      | None => (acc, s)
      end
  | EmptyString => (acc, s)
  end.

(** An integer [0] or [[1-9][0-9]*]; a fraction or an exponent is outside
    the fragment. *)
Definition parse_nat (s : string) : option (Z * string) :=
  match s with
  | String c r =>
      match digit_val c with
      | Some 0%Z => Some (0%Z, r)
      | Some d => Some (parse_digits d r)
      | None => None
      end
  | EmptyString => None
  end.

Definition no_fraction (s : string) : bool :=
  match s with
  | String c _ =>
      negb (Ascii.eqb c "." || Ascii.eqb c "e" || Ascii.eqb c "E"
            || match digit_val c with Some _ => true | None => false end)
  | EmptyString => true
  end.

Definition parse_number (s : string) : option (Z * string) :=
  let signed :=
    match s with
    | String "-" r =>
        match parse_nat r with Some (n, r') => Some ((- n)%Z, r') | None => None end
    | _ => parse_nat s
    end in
  match signed with
  | Some (n, r) => if no_fraction r then Some (n, r) else None
  | None => None
  end.

(** The characters of a string literal, after its opening quote. *)
Fixpoint parse_chars (s : string) : option (string * string) :=
  match s with
  | EmptyString => None
  | String c r =>
      if Ascii.eqb c JS.dquote then Some (EmptyString, r)
      else if Ascii.eqb c JS.backslash then
        match r with
        | String e r1 =>
            let simple (x : ascii) :=
              match parse_chars r1 with
              | Some (body, rest) => Some (String x body, rest)
              | None => None
              end in
            if Ascii.eqb e JS.dquote then simple JS.dquote
            else if Ascii.eqb e JS.backslash then simple JS.backslash
            else if Ascii.eqb e "/" then simple "/"%char
            else if Ascii.eqb e "b" then simple (ascii_of_nat 8)
            else if Ascii.eqb e "f" then simple (ascii_of_nat 12)
            else if Ascii.eqb e "n" then simple (ascii_of_nat 10)
            else if Ascii.eqb e "r" then simple (ascii_of_nat 13)
            else if Ascii.eqb e "t" then simple (ascii_of_nat 9)
            else if Ascii.eqb e "u" then
              match r1 with
              | String h1 (String h2 (String h3 (String h4 r2))) =>
                  match hex_val h1, hex_val h2, hex_val h3, hex_val h4 with
                  | Some 0, Some 0, Some a, Some b =>
                      match parse_chars r2 with
                      | Some (body, rest) =>
                          Some (String (ascii_of_nat (16 * a + b)) body, rest)
                      | None => None
                      end
                  | _, _, _, _ => None
                  end
              | _ => None
              end
            else None
        | EmptyString => None
        end
      else if (nat_of_ascii c <? 32)%nat then None
      else
        match parse_chars r with
        | Some (body, rest) => Some (String c body, rest)
        | None => None
        end
  end.

Definition expect (lit : string) (v : t) (s : string) : option (t * string) :=
  if String.prefix lit s
  then Some (v, substring (String.length lit) (String.length s - String.length lit) s)
  else None.

Fixpoint parse_value (fuel : nat) (s : string) {struct fuel} : option (t * string) :=
  match fuel with
  | O => None
  | S fuel' =>
      match skip_ws s with
      | EmptyString => None
      | String c r =>
          if Ascii.eqb c "n" then expect "null" Null (String c r)
          else if Ascii.eqb c "t" then expect "true" (Bool true) (String c r)
          else if Ascii.eqb c "f" then expect "false" (Bool false) (String c r)
          else if Ascii.eqb c JS.dquote then
            match parse_chars r with
            | Some (x, rest) => Some (Str x, rest)
            | None => None
            end
          else if Ascii.eqb c "[" then
            match skip_ws r with
            | String "]" rest => Some (Array [], rest)
            | _ =>
                match parse_elements fuel' r with
                | Some (l, rest) => Some (Array l, rest)
                | None => None
                end
            end
          else if Ascii.eqb c "{" then
            match skip_ws r with
            | String "}" rest => Some (Object [], rest)
            | _ =>
                match parse_members fuel' r with
                | Some (m, rest) => Some (Object m, rest)
                | None => None
                end
            end
          else
            match parse_number (String c r) with
            | Some (n, rest) => Some (Number n, rest)
            | None => None
            end
      end
  end

with parse_elements (fuel : nat) (s : string) {struct fuel} : option (list t * string) :=
  match fuel with
  | O => None
  | S fuel' =>
      match parse_value fuel' s with
      | Some (v, r) =>
          match skip_ws r with
          | String "," r1 =>
              match parse_elements fuel' r1 with
              | Some (l, rest) => Some (v :: l, rest)
              | None => None
              end
          | String "]" rest => Some ([v], rest)
          | _ => None
          end
      | None => None
      end
  end

with parse_members (fuel : nat) (s : string) {struct fuel}
  : option (list (string * t) * string) :=
  match fuel with
  | O => None
  | S fuel' =>
      match skip_ws s with
      | String c r =>
          if Ascii.eqb c JS.dquote then
            match parse_chars r with
            | Some (k, r1) =>
                match skip_ws r1 with
                | String ":" r2 =>
                    match parse_value fuel' r2 with
                    | Some (v, r3) =>
                        match skip_ws r3 with
                        | String "," r4 =>
                            match parse_members fuel' r4 with
                            | Some (m, rest) => Some ((k, v) :: m, rest)
                            | None => None
                            end
                        | String "}" rest => Some ([(k, v)], rest)
                        | _ => None
                        end
                    | None => None
                    end
                | _ => None
                end
            | None => None
            end
          else None
      | EmptyString => None
      end
  end.

(** [JSON.parse(text)]; [None] stands for the [SyntaxError] it throws. *)
Definition parse (text : string) : option t :=
  match parse_value (2 * String.length text + 2) text with
  | Some (v, rest) => if JS.is_empty (skip_ws rest) then Some v else None
  | None => None
  end.

End Json.

(** ** The two schemas (interfaces of [ollamaConverter.ts] and of the
       [@google/genai] types it imports) *)

(** A JavaScript [number] that the converter only copies. *)
Definition number : Type := Q.

(** *** Orchestration side *)

Record Blob := { mimeType : option string; data : string }.

Record FunctionCall := { fc_name : string; args : option Json.t }.

Record FunctionResponse := { response : option Json.t }.

(** A [Part] is an object with optional members; the converters test them in
    a fixed order, so a record of options is kept rather than a variant. *)
Record Part := {
  text : option string;
  inlineData : option Blob;
  functionCall : option FunctionCall;
  functionResponse : option FunctionResponse
}.

Record Content := { role : option string; parts : option (list Part) }.

Record FunctionDeclaration := {
  fd_name : string;
  description : option string;
  parameters : option Json.t
}.

Record Tool := { functionDeclarations : option (list FunctionDeclaration) }.

Record GenerateContentConfig := {
  temperature : option number;
  topP : option number;
  topK : option number;
  maxOutputTokens : option number;
  stopSequences : option (list string);
  seed : option number;
  cfg_systemInstruction : option Content
}.

Record GenerateContentParameters := {
  model : string;
  contents : list Content;
  config : option GenerateContentConfig;
  systemInstruction : option Content;
  tools : option (list Tool)
}.

Inductive FinishReason := STOP | MAX_TOKENS.

Record UsageMetadata := {
  promptTokenCount : Z;
  candidatesTokenCount : Z;
  totalTokenCount : Z
}.

Record Candidate := {
  cand_content : option Content;
  finishReason : option FinishReason;
  index : Z
}.

Record GenerateContentResponse := {
  candidates : option (list Candidate);
  usageMetadata : option UsageMetadata;
  modelVersion : option string
}.

(** *** Ollama side *)

Inductive OllamaRole := system | user | assistant | tool.

(** [{ function: { name, arguments } }] *)
Record OllamaToolCall := { tc_name : string; arguments : Json.t }.

Record OllamaMessage := {
  msg_role : OllamaRole;
  content : string;
  images : option (list string);
  tool_calls : option (list OllamaToolCall)
}.

Record OllamaOptions := {
  o_temperature : option number;
  top_p : option number;
  top_k : option number;
  num_predict : option number;
  stop : option (list string);
  o_seed : option number;
  num_ctx : option number
}.

(** [{ type: 'function', function: { name, description, parameters } }] *)
Record OllamaTool := {
  tool_name : string;
  tool_description : string;
  tool_parameters : Json.t
}.

Record OllamaRequest := {
  req_model : string;
  messages : list OllamaMessage;
  options : option OllamaOptions;
  stream : option bool;
  format : option string;
  req_tools : option (list OllamaTool);
  keep_alive : option string
}.

Record OllamaResponse := {
  resp_model : string;
  resp_message : OllamaMessage;
  resp_done : bool;
  resp_done_reason : option string;
  resp_prompt_eval_count : option Z;
  resp_eval_count : option Z
}.

Record ChunkMessage := { cm_role : string; cm_content : string }.

Record OllamaStreamChunk := {
  chunk_model : string;
  chunk_message : option ChunkMessage;
  done : bool;
  done_reason : option string;
  prompt_eval_count : option Z;
  eval_count : option Z
}.

(** ** [ollamaConverter.ts]: request direction *)

(** [k in o] for an optional member. *)
Definition has {A : Type} (o : option A) : bool :=
  match o with Some _ => true | None => false end.


(** [extractTextFromContent] *)
Definition extractTextFromContent (c : Content) : string :=
  match parts c with
  | None => ""
  | Some ps =>
      JS.join (String JS.newline "")
        (filter (fun t => negb (JS.is_empty t))
           (map (fun part => if JS.truthy (text part)
                             then match text part with Some t => t | None => "" end
                             else "") ps))
  end.

(** The mutable locals of [convertContentToMessage]. *)
Record MessageBuilder := {
  b_role : OllamaRole;
  textParts : list string;
  b_images : list string;
  toolCalls : option (list OllamaToolCall)
}.

(** One iteration of [for (const part of content.parts)]: the chain of
    [if ('k' in part && part.k)] tests, in the order of the source.  A pushed
    [JSON.stringify(undefined)] is [undefined], which [join] renders as the
    empty string: it is pushed here as the empty string. *)
Definition convertPart (b : MessageBuilder) (part : Part) : MessageBuilder :=
  if JS.truthy (text part) then
    {| b_role := b_role b;
       textParts := (textParts b ++ [match text part with Some t => t | None => "" end])%list;
       b_images := b_images b; toolCalls := toolCalls b |}
  else
    match inlineData part with
    | Some blob =>
        if match mimeType blob with
           | Some m => JS.startsWith m "image/"
           | None => false
           end
        then {| b_role := b_role b; textParts := textParts b;
                b_images := (b_images b ++ [data blob])%list;
                toolCalls := toolCalls b |}
        else b
    | None =>
        match functionCall part with
        | Some fc =>
            let calls := match toolCalls b with Some l => l | None => [] end in
            {| b_role := b_role b; textParts := textParts b; b_images := b_images b;
               toolCalls :=
                 Some (calls ++ [ {| tc_name := fc_name fc;
                                     arguments := match args fc with
                                                  | Some a => a
                                                  | None => Json.Object []
                                                  end |} ])%list |}
        | None =>
            match functionResponse part with
            | Some fr =>
                {| b_role := tool;
                   textParts := (textParts b ++
                                   [match response fr with
                                    | Some v => Json.stringify v
                                    | None => ""
                                    end])%list;
                   b_images := b_images b; toolCalls := toolCalls b |}
            | None => b
            end
        end
    end.

(** The part is a function response for the converter: its
    [functionResponse] member is present and no earlier test of the chain in
    [convertPart] selects the part.  When a part carries one member only
    (the tagged variant of the data model) this is [has (functionResponse p)]. *)
Definition isFunctionResponsePart (p : Part) : bool :=
  negb (JS.truthy (text p)) && negb (has (inlineData p))
  && negb (has (functionCall p)) && has (functionResponse p).

(** The parameters of a request that carries the given turns only. *)
Definition turnsOnly (cs : list Content) : GenerateContentParameters :=
  {| model := "llama3"; contents := cs; config := None;
     systemInstruction := None; tools := None |}.

(** [convertContentToMessage]; [None] is the [null] it returns. *)
Definition convertContentToMessage (c : Content) : option OllamaMessage :=
  match parts c with
  | None => None
  | Some [] => None
  | Some ps =>
      let role0 :=
        match role c with
        | Some r => if String.eqb r "model" then assistant
                    else if String.eqb r "function" then tool
                    else user
        | None => user
        end in
      let b := fold_left convertPart ps
                 {| b_role := role0; textParts := []; b_images := [];
                    toolCalls := None |} in
      Some {| msg_role := b_role b;
              content := JS.join (String JS.newline "") (textParts b);
              images := if (0 <? length (b_images b))%nat
                        then Some (b_images b) else None;
              tool_calls := match toolCalls b with
                            | Some l => if (0 <? length l)%nat then Some l else None
                            | None => None
                            end |}
  end.

(** The keys that the assignments of [convertGenerationConfig] created. *)
Definition Object_keys (o : OllamaOptions) : list string :=
  ((if has (o_temperature o) then ["temperature"] else []) ++
   (if has (top_p o) then ["top_p"] else []) ++
   (if has (top_k o) then ["top_k"] else []) ++
   (if has (num_predict o) then ["num_predict"] else []) ++
   (if has (stop o) then ["stop"] else []) ++
   (if has (o_seed o) then ["seed"] else []) ++
   (if has (num_ctx o) then ["num_ctx"] else []))%list.

(** [convertGenerationConfig] *)
Definition convertGenerationConfig (config : option GenerateContentConfig)
  : option OllamaOptions :=
  match config with
  | None => None
  | Some config =>
      let options :=
        {| o_temperature := temperature config;
           top_p := topP config;
           top_k := topK config;
           num_predict := maxOutputTokens config;
           stop := match stopSequences config with
                   | Some l => if (0 <? length l)%nat then Some l else None
                   | None => None
                   end;
           o_seed := seed config;
           num_ctx := None |} in
      if (0 <? length (Object_keys options))%nat then Some options else None
  end.

(** [convertFunctionToTool] *)
Definition convertFunctionToTool (fn : FunctionDeclaration) : OllamaTool :=
  {| tool_name := fd_name fn;
     tool_description := if JS.truthy (description fn)
                         then match description fn with Some d => d | None => "" end
                         else "";
     tool_parameters := match parameters fn with
                        | Some p => p
                        | None => Json.Object []
                        end |}.

(** The [// Add system instruction if present] block of
    [convertToOllamaRequest]: the message list before the turns. *)
Definition systemMessages (params : GenerateContentParameters) : list OllamaMessage :=
  match systemInstruction params with
  | Some si =>
      let systemText := extractTextFromContent si in
      if negb (JS.is_empty systemText)
      then [ {| msg_role := system; content := systemText;
                images := None; tool_calls := None |} ]
      else []
  | None => []
  end.

(** [convertToOllamaRequest] *)
Definition convertToOllamaRequest (params : GenerateContentParameters)
  (stream : bool) : OllamaRequest :=
  let messages0 := systemMessages params in
  let messages :=
    fold_left (fun msgs c => match convertContentToMessage c with
                             | Some m => (msgs ++ [m])%list
                             | None => msgs
                             end)
      (contents params) messages0 in
  let options := convertGenerationConfig (config params) in
  let tools :=
    match tools params with
    | Some ts =>
        Some (flat_map (fun tl => match functionDeclarations tl with
                                  | Some fns => map convertFunctionToTool fns
                                  | None => []
                                  end) ts)
    | None => None
    end in
  {| req_model := model params;
     messages := messages;
     options := options;
     stream := Some stream;
     format := None;
     req_tools := match tools with
                  | Some l => if (0 <? length l)%nat then Some l else None
                  | None => None
                  end;
     keep_alive := None |}.

(** ** [ollamaConverter.ts]: response direction *)

(** [x || 0] on an optional counter. *)
Definition or_zero (x : option Z) : Z :=
  match x with
  | Some n => if (n =? 0)%Z then 0%Z else n
  | None => 0%Z
  end.

Definition textPart (s : string) : Part :=
  {| text := Some s; inlineData := None; functionCall := None;
     functionResponse := None |}.

Definition functionCallPart (name : string) (a : Json.t) : Part :=
  {| text := None; inlineData := None;
     functionCall := Some {| fc_name := name; args := Some a |};
     functionResponse := None |}.

(** [convertToGeminiResponse] *)
Definition convertToGeminiResponse (response : OllamaResponse)
  : GenerateContentResponse :=
  let reason_is (r : string) :=
    match resp_done_reason response with
    | Some x => String.eqb x r
    | None => false
    end in
  let finishReason :=
    if reason_is "stop" then STOP
    else if reason_is "length" then MAX_TOKENS
    else if resp_done response then STOP
    else STOP in
  let parts1 :=
    if negb (JS.is_empty (content (resp_message response)))
    then [textPart (content (resp_message response))] else [] in
  let parts2 :=
    match tool_calls (resp_message response) with
    | Some calls => map (fun tc => functionCallPart (tc_name tc) (arguments tc)) calls
    | None => []
    end in
  {| candidates :=
       Some [ {| cand_content := Some {| role := Some "model";
                                         parts := Some (parts1 ++ parts2)%list |};
                 finishReason := Some finishReason;
                 index := 0 |} ];
     usageMetadata :=
       Some {| promptTokenCount := or_zero (resp_prompt_eval_count response);
               candidatesTokenCount := or_zero (resp_eval_count response);
               totalTokenCount := or_zero (resp_prompt_eval_count response)
                                  + or_zero (resp_eval_count response) |};
     modelVersion := Some (resp_model response) |}.

(** [convertStreamChunkToGeminiResponse]; [_isFirst] is not read. *)
Definition convertStreamChunkToGeminiResponse (chunk : OllamaStreamChunk)
  (_isFirst : bool) : GenerateContentResponse :=
  let parts :=
    match chunk_message chunk with
    | Some m => if negb (JS.is_empty (cm_content m)) then [textPart (cm_content m)] else []
    | None => []
    end in
  let finishReason :=
    if done chunk then
      Some (match done_reason chunk with
            | Some r => if String.eqb r "length" then MAX_TOKENS else STOP
            | None => STOP
            end)
    else None in
  {| candidates :=
       Some [ {| cand_content := Some {| role := Some "model"; parts := Some parts |};
                 finishReason := finishReason;
                 index := 0 |} ];
     usageMetadata :=
       if done chunk then
         Some {| promptTokenCount := or_zero (prompt_eval_count chunk);
                 candidatesTokenCount := or_zero (eval_count chunk);
                 totalTokenCount := or_zero (prompt_eval_count chunk)
                                    + or_zero (eval_count chunk) |}
       else None;
     modelVersion := Some (chunk_model chunk) |}.

(** ** [ollamaTokenizer.ts]

    The counters are JavaScript numbers built from the constants 1, 1.5, 0.5
    and 0.3; they are kept here as exact rationals, and [Math.ceil] is
    [Qceiling].  The rounding of floating-point arithmetic is outside the
    model; the properties below are bounds (at least 0, at least 1, equal to
    0 on a sum of zeros) that a monotone rounding preserves. *)

Module Re.

(** Character classes of the regular expressions in the tokenizer. *)
Definition in_class (cls : string) (c : ascii) : bool :=
  JS.includes cls (String c "").

Definition between (lo hi : nat) (c : ascii) : bool :=
  ((lo <=? nat_of_ascii c) && (nat_of_ascii c <=? hi))%nat.

Definition is_digit := between 48 57.
Definition is_upper := between 65 90.
Definition is_lower := between 97 122.

(** [\w] *)
Definition is_word (c : ascii) : bool :=
  is_digit c || is_upper c || is_lower c || Ascii.eqb c "_".

Definition is_quote (c : ascii) : bool :=
  Ascii.eqb c JS.dquote || Ascii.eqb c "'" || Ascii.eqb c "`".

(** The punctuation class of [estimateTokenCount]: full stop, comma,
    exclamation and question mark, semicolon, colon, both quotes, and the
    round, square and curly brackets. *)
Definition is_punctuation (c : ascii) : bool :=
  in_class ".,!?;:'()[]{}" c || Ascii.eqb c JS.dquote.

(** [[0-9@#$%^&*+=<>\/\\|`~]] *)
Definition is_special (c : ascii) : bool :=
  is_digit c || in_class "@#$%^&*+=<>/|`~" c || Ascii.eqb c JS.backslash.

(** [[\s(){}\[\];,\.]] *)
Definition is_code_delimiter (c : ascii) : bool :=
  JS.is_space c || in_class "(){}[];,." c.

(** [[=+\-*\/%<>&|!~^]] *)
Definition is_operator (c : ascii) : bool :=
  in_class "=+-*/%<>&|!~^" c.

(** [(s.match(/[cls]/g) || []).length] *)
Fixpoint count (cls : ascii -> bool) (s : string) : nat :=
  match s with
  | EmptyString => 0
  | String c r => (if cls c then 1 else 0) + count cls r
  end.

Definition cons_head (c : ascii) (l : list string) : list string :=
  match l with
  | h :: t => String c h :: t
  | [] => [String c EmptyString]
  end.

(** [s.split(/[cls]+/)]: the pieces between maximal runs of separator
    characters; [in_run] says that the previous character was one. *)
Fixpoint split_runs (cls : ascii -> bool) (in_run : bool) (s : string)
  : list string :=
  match s with
  | EmptyString => [EmptyString]
  | String c r =>
      if cls c then
        if in_run then split_runs cls true r
        else EmptyString :: split_runs cls true r
      else cons_head c (split_runs cls false r)
  end.

(** [token.split(/[_-]|(?=[A-Z])/)]: an underscore or a hyphen is consumed;
    the empty match before a capital letter splits too, except at the start
    of a piece ([at_start]), where the split algorithm skips it. *)
Fixpoint split_identifier (at_start : bool) (s : string) : list string :=
  match s with
  | EmptyString => [EmptyString]
  | String c r =>
      if Ascii.eqb c "_" || Ascii.eqb c "-" then
        EmptyString :: split_identifier true r
      else if is_upper c && negb at_start then
        EmptyString :: cons_head c (split_identifier false r)
      else cons_head c (split_identifier false r)
  end.

(** Number of matches of the string-literal expression (a quote character,
    any run of non-quote characters, a quote character; quote characters
    are the double quote, the apostrophe and the backtick): a match runs
    from a quote character to the next one; [inside] says that a match is
    open. *)
Fixpoint count_quoted (inside : bool) (s : string) : nat :=
  match s with
  | EmptyString => 0
  | String c r =>
      if is_quote c then
        if inside then 1 + count_quoted false r else count_quoted true r
      else count_quoted inside r
  end.

(** The shortest [x] with [s = x ++ "```" ++ _], with the fence appended:
    the lazy [[\s\S]*?```] after an opening fence. *)
Fixpoint until_fence (s : string) : option string :=
  if String.prefix "```" s then Some "```"
  else match s with
       | EmptyString => None
       | String c r =>
           match until_fence r with
           | Some x => Some (String c x)
           | None => None
           end
       end.

(** [[^`]*`] *)
Fixpoint until_backtick (s : string) : option string :=
  match s with
  | EmptyString => None
  | String c r =>
      if Ascii.eqb c "`" then Some "`"
      else match until_backtick r with
           | Some x => Some (String c x)
           | None => None
           end
  end.

(** A match of [/(```[\s\S]*?```|`[^`]+`)/] at the start of [s]. *)
Definition match_code (s : string) : option string :=
  let fenced :=
    if String.prefix "```" s
    then match until_fence (substring 3 (String.length s - 3) s) with
         | Some x => Some ("```" ++ x)
         | None => None
         end
    else None in
  match fenced with
  | Some m => Some m
  | None =>
      match s with
      | String "`" (String c r) =>
          if Ascii.eqb c "`" then None
          else match until_backtick r with
               | Some x => Some (String "`" (String c x))
               | None => None
               end
      | _ => None
      end
  end.

(** [content.split(/(```[\s\S]*?```|`[^`]+`)/)]: text pieces alternate
    with the captured matches; [skip] characters of the current match are
    still to be passed over. *)
Fixpoint split_code (skip : nat) (s : string) : list string :=
  match s with
  | EmptyString => [EmptyString]
  | String c r =>
      match skip with
      | S k => split_code k r
      | O =>
          match match_code s with
          | Some m => EmptyString :: m :: split_code (String.length m - 1) r
          | None => cons_head c (split_code 0 r)
          end
      end
  end.

(** [part.replace(/^```[\w]*\n?/, '')] *)
Fixpoint drop_word (s : string) : string :=
  match s with
  | String c r => if is_word c then drop_word r else s
  | EmptyString => EmptyString
  end.

Definition strip_fence_open (s : string) : string :=
  if String.prefix "```" s then
    match drop_word (substring 3 (String.length s - 3) s) with
    | String c r => if Ascii.eqb c JS.newline then r else String c r
    | EmptyString => EmptyString
    end
  else s.

(** [code.replace(/```$/, '')] *)
Fixpoint strip_fence_close (s : string) : string :=
  match s with
  | EmptyString => EmptyString
  | String c r => if String.eqb s "```" then EmptyString
                  else String c (strip_fence_close r)
  end.

End Re.

Definition non_empty (l : list string) : list string :=
  filter (fun w => (0 <? String.length w)%nat) l.

(** Characters that are not white space, that are not delimiters of code,
    and the backtick: the classes in which the bounds are stated. *)
Definition notSpace (c : ascii) : bool := negb (JS.is_space c).
Definition notDelimiter (c : ascii) : bool := negb (Re.is_code_delimiter c).
Definition isBacktick (c : ascii) : bool := Ascii.eqb c "`".

(** [Math.ceil(n / 4)] for a length [n]. *)
Definition ceil_quarter (n : nat) : Z := Qceiling (Z.of_nat n # 4).

(** The body of the word loop of [estimateTokenCount]. *)
Definition wordStep (tokenCount : Q) (word : string) : Q :=
  let tokenCount :=
    if (String.length word <=? 6)%nat then (tokenCount + 1)%Q
    else if (String.length word <=? 12)%nat then (tokenCount + (3 # 2))%Q
    else (tokenCount + inject_Z (ceil_quarter (String.length word)))%Q in
  let punctuationCount := Re.count Re.is_punctuation word in
  (tokenCount + inject_Z (Z.of_nat punctuationCount) * (1 # 2))%Q.

(** [estimateTokenCount] *)
Definition estimateTokenCount (text : string) : Z :=
  if JS.is_empty text then 0%Z
  else
    let words := non_empty (Re.split_runs JS.is_space false text) in
    let tokenCount := fold_left wordStep words 0%Q in
    let specialChars := Re.count Re.is_special text in
    let tokenCount := (tokenCount + inject_Z (Z.of_nat specialChars) * (3 # 10))%Q in
    Qceiling tokenCount.

(** [estimateTokenCountSimple] *)
Definition estimateTokenCountSimple (text : string) : Z :=
  if JS.is_empty text then 0%Z
  else ceil_quarter (String.length text).

(** The body of the token loop of [estimateTokenCountForCode]. *)
Definition codeStep (tokenCount : Q) (token : string) : Q :=
  if (String.length token <=? 8)%nat then (tokenCount + 1)%Q
  else
    let parts := non_empty (Re.split_identifier true token) in
    (tokenCount + inject_Z (Z.max (Z.of_nat (length parts)) 1))%Q.

(** [estimateTokenCountForCode] *)
Definition estimateTokenCountForCode (code : string) : Z :=
  if JS.is_empty code then 0%Z
  else
    let tokens := non_empty (Re.split_runs Re.is_code_delimiter false code) in
    let tokenCount := fold_left codeStep tokens 0%Q in
    let operators := Re.count Re.is_operator code in
    let tokenCount := (tokenCount + inject_Z (Z.of_nat operators))%Q in
    let strings := Re.count_quoted false code in
    let tokenCount := (tokenCount + inject_Z (Z.of_nat strings) * 2)%Q in
    Qceiling tokenCount.

(** [estimateTokenCountMixed] *)
Definition estimateTokenCountMixed (content : string) : Z :=
  if JS.is_empty content then 0%Z
  else
    let parts := Re.split_code 0 content in
    fold_left
      (fun (totalTokens : Z) (part : string) =>
         if JS.startsWith part "```" || JS.startsWith part "`" then
           let code := Re.strip_fence_close (Re.strip_fence_open part) in
           (totalTokens + estimateTokenCountForCode code)%Z
         else (totalTokens + estimateTokenCount part)%Z)
      parts 0%Z.

(** ** [ollamaContentGenerator.ts]: the adapter facade *)

(** A thrown value: an [Error] object ([error instanceof Error]) or anything
    else. *)
Record JSError := { name : string; message : string }.

Inductive Thrown :=
| ErrorObject (e : JSError)
| OtherValue (v : Json.t).

(** [new Error(msg)] *)
Definition new_Error (msg : string) : Thrown :=
  ErrorObject {| name := "Error"; message := msg |}.

Record OllamaEmbeddingRequest := { emb_model : string; prompt : string }.

Record OllamaEmbeddingResponse := { embedding : list number }.

Record ContentEmbedding := { values : list number }.

Record EmbedContentResponse := { embeddings : list ContentEmbedding }.

(** [ContentListUnion]: one item or an array. *)
Inductive ContentListUnion :=
| One (c : Content)
| Many (l : list Content).

Record EmbedContentParameters := {
  embed_model : string;
  embed_contents : ContentListUnion
}.

Record CountTokensParameters := {
  count_contents : ContentListUnion;
  count_config : option GenerateContentConfig
}.

Record CountTokensResponse := { totalTokens : Z }.

(** The body handed to [fetch] is [JSON.stringify] of one of two records;
    of the other options of the call the model keeps the method and the
    content type (the abort signal acts inside the transport). *)
Inductive RequestBody :=
| ChatBody (r : OllamaRequest)
| EmbeddingBody (r : OllamaEmbeddingRequest).

Record Request := {
  url : string;
  method : string;
  contentType : string;
  body : RequestBody
}.

(** What the facade reads of a [Response]: [ok], [status], [await text()],
    [await json()] under the type ascribed at the call site, and a [body]
    stream that delivers finitely many byte chunks and then ends. *)
Record Response := {
  ok : bool;
  status : Z;
  resp_text : string;
  json_chat : Thrown + OllamaResponse;
  json_embedding : Thrown + OllamaEmbeddingResponse;
  resp_body : option (list (list byte))
}.

(** [TextDecoder] in streaming mode: a transducer that consumes one byte at a
    time and keeps the bytes of an unfinished character in its state. *)
Record TextDecoder := {
  dstate : Type;
  dinit : dstate;
  dstep : dstate -> byte -> dstate * string
}.

(** The adapter instance: its only field. *)
Record OllamaContentGenerator := { baseUrl : string }.

(** [constructor(baseUrl, _config)] *)
Definition constructor (baseUrl : string) : OllamaContentGenerator :=
  {| baseUrl := JS.stripTrailingSlash baseUrl |}.

(** *** A monad for calls that use the network

    A computation threads the log of the requests issued so far and ends in a
    thrown value or a result. *)

Definition IO (A : Type) : Type := list Request -> list Request * (Thrown + A).

Definition ret {A : Type} (a : A) : IO A := fun log => (log, inr a).

Definition throw {A : Type} (e : Thrown) : IO A := fun log => (log, inl e).

Definition bind {A B : Type} (m : IO A) (k : A -> IO B) : IO B :=
  fun log =>
    match m log with
    | (log', inr a) => k a log'
    | (log', inl e) => (log', inl e)
    end.

(** [try { m } catch (error) { h error }] *)
Definition try_catch {A : Type} (m : IO A) (h : Thrown -> IO A) : IO A :=
  fun log =>
    match m log with
    | (log', inr a) => (log', inr a)
    | (log', inl e) => h e log'
    end.

(** [await p] for a promise that is already settled. *)
Definition await {A : Type} (p : Thrown + A) : IO A := fun log => (log, p).

Declare Scope io_scope.
Delimit Scope io_scope with io.
Notation "x <- m ;; k" := (bind m (fun x => k))
  (at level 61, m at next level, right associativity) : io_scope.

(** What one [JSON.parse] of the streaming loop led to. *)
Inductive StreamEvent :=
| Yielded (chunk : OllamaStreamChunk) (fragment : GenerateContentResponse)
| Suppressed (chunk : OllamaStreamChunk)
| ParseFailed (line : string).

(** The fragments handed to the consumer of the generator. *)
Fixpoint yields (evs : list StreamEvent) : list GenerateContentResponse :=
  match evs with
  | [] => []
  | Yielded _ r :: t => r :: yields t
  | _ :: t => yields t
  end.

(** The records obtained from [JSON.parse]. *)
Fixpoint decoded (evs : list StreamEvent) : list OllamaStreamChunk :=
  match evs with
  | [] => []
  | Yielded c _ :: t => c :: decoded t
  | Suppressed c :: t => c :: decoded t
  | ParseFailed _ :: t => decoded t
  end.

(** The lines passed to [debugLogger.debug]. *)
Fixpoint logged (evs : list StreamEvent) : list string :=
  match evs with
  | [] => []
  | ParseFailed l :: t => l :: logged t
  | _ :: t => logged t
  end.

(** [geminiResponse.candidates?.[0]?.content?.parts &&
     geminiResponse.candidates[0].content.parts.length > 0] *)
Definition hasParts (geminiResponse : GenerateContentResponse) : bool :=
  match candidates geminiResponse with
  | Some (c :: _) =>
      match cand_content c with
      | Some ct =>
          match parts ct with
          | Some ps => (0 <? length ps)%nat
          | None => false
          end
      | None => false
      end
  | _ => false
  end.

(** A string without a line feed. *)
Fixpoint singleLine (s : string) : bool :=
  match s with
  | EmptyString => true
  | String c r => negb (Ascii.eqb c JS.newline) && singleLine r
  end.

(** The text of a body made of the given lines, newline-delimited; the last
    line is followed by a newline when [terminated]. *)
Definition ndjson (lines : list string) (terminated : bool) : string :=
  JS.join (String JS.newline "") lines
  ++ (if terminated then String JS.newline "" else "").

(** [l] with [x] put before its element of index [k] (at the end when [k] is
    not an index of [l]). *)
Definition insertAt {A : Type} (k : nat) (x : A) (l : list A) : list A :=
  (firstn k l ++ x :: skipn k l)%list.

Section Adapter.

(** The platform: [fetch], [TextDecoder], and [JSON.parse] of a line under
    the ascription [OllamaStreamChunk] ([None] when the [try] block of the
    loop throws). *)
Variable fetch : Request -> Thrown + Response.
Variable decoder : TextDecoder.
Variable JSON_parse : string -> option OllamaStreamChunk.

Definition fetch_ (r : Request) : IO Response :=
  fun log => ((log ++ [r])%list, fetch r).

(** [decoder.decode(value, { stream: true })] *)
Fixpoint decode (st : dstate decoder) (value : list byte)
  : dstate decoder * string :=
  match value with
  | [] => (st, EmptyString)
  | b :: r =>
      let (st1, s1) := dstep decoder st b in
      let (st2, s2) := decode st1 r in
      (st2, s1 ++ s2)
  end.

(** The [try] block of the loop body, for one non-blank line. *)
Definition parseLine (isFirst : bool) (line : string) : list StreamEvent * bool :=
  match JSON_parse line with
  | Some chunk =>
      let geminiResponse := convertStreamChunkToGeminiResponse chunk isFirst in
      if hasParts geminiResponse || done chunk
      then ([Yielded chunk geminiResponse], false)
      else ([Suppressed chunk], false)
  | None => ([ParseFailed line], isFirst)
  end.

(** [for (const line of lines)] *)
Fixpoint processLines (isFirst : bool) (lines : list string)
  : list StreamEvent * bool :=
  match lines with
  | [] => ([], isFirst)
  | line :: rest =>
      let (evs1, isFirst1) :=
        if JS.is_empty (JS.trim line) then ([], isFirst)
        else parseLine isFirst line in
      let (evs2, isFirst2) := processLines isFirst1 rest in
      ((evs1 ++ evs2)%list, isFirst2)
  end.

(** The locals of [parseStreamingResponse] that live across reads. *)
Record ReaderState := {
  dec : dstate decoder;
  buffer : string;
  isFirst : bool
}.

(** One iteration of [while (true)] with [done] false. *)
Definition onChunk (st : ReaderState) (value : list byte)
  : list StreamEvent * ReaderState :=
  let (dec1, decodedText) := decode (dec st) value in
  let buffer1 := buffer st ++ decodedText in
  let lines := JS.split JS.newline buffer1 in
  let buffer2 := last lines EmptyString in
  let (evs, isFirst1) := processLines (isFirst st) (removelast lines) in
  (evs, {| dec := dec1; buffer := buffer2; isFirst := isFirst1 |}).

(** The loop, until the reader reports [done]. *)
Fixpoint readAll (st : ReaderState) (chunks : list (list byte))
  : list StreamEvent * ReaderState :=
  match chunks with
  | [] => ([], st)
  | value :: rest =>
      let (evs1, st1) := onChunk st value in
      let (evs2, st2) := readAll st1 rest in
      ((evs1 ++ evs2)%list, st2)
  end.

(** [// Process any remaining data in buffer] *)
Definition flushBuffer (buffer : string) : list StreamEvent :=
  if negb (JS.is_empty (JS.trim buffer)) then
    match JSON_parse buffer with
    | Some chunk => [Yielded chunk (convertStreamChunkToGeminiResponse chunk false)]
    | None => [ParseFailed buffer]
    end
  else [].

Definition initialState : ReaderState :=
  {| dec := dinit decoder; buffer := EmptyString; isFirst := true |}.

(** [parseStreamingResponse], run to the end of the body. *)
Definition parseStreamingResponse (body : list (list byte)) : list StreamEvent :=
  let (evs, st) := readAll initialState body in
  (evs ++ flushBuffer (buffer st))%list.

Local Open Scope io_scope.

Definition connectionMessage (this : OllamaContentGenerator) : string :=
  "Cannot connect to Ollama at " ++ baseUrl this ++ ". "
  ++ "Please ensure Ollama is running (try: ollama serve)".

Definition chatRequest (this : OllamaContentGenerator) (r : OllamaRequest)
  : Request :=
  {| url := baseUrl this ++ "/api/chat"; method := "POST";
     contentType := "application/json"; body := ChatBody r |}.

(** [generateContent] *)
Definition generateContent (this : OllamaContentGenerator)
  (request : GenerateContentParameters) (_userPromptId : string)
  : IO GenerateContentResponse :=
  let ollamaRequest := convertToOllamaRequest request false in
  try_catch
    (response <- fetch_ (chatRequest this ollamaRequest) ;;
     if negb (ok response) then
       errorText <- ret (resp_text response) ;;
       throw (new_Error ("Ollama API error (" ++ JS.string_of_Z (status response)
                           ++ "): " ++ errorText))
     else
       ollamaResponse <- await (json_chat response) ;;
       ret (convertToGeminiResponse ollamaResponse))
    (fun error =>
       match error with
       | ErrorObject e =>
           if String.eqb (name e) "AbortError" then throw error
           else if JS.includes (message e) "ECONNREFUSED"
                then throw (new_Error (connectionMessage this))
                else throw error
       | OtherValue _ => throw error
       end).

(** [generateContentStream]; the generator it returns is drained. *)
Definition generateContentStream (this : OllamaContentGenerator)
  (request : GenerateContentParameters) (_userPromptId : string)
  : IO (list StreamEvent) :=
  let ollamaRequest := convertToOllamaRequest request true in
  response <- fetch_ (chatRequest this ollamaRequest) ;;
  if negb (ok response) then
    errorText <- ret (resp_text response) ;;
    throw (new_Error ("Ollama API error (" ++ JS.string_of_Z (status response)
                        ++ "): " ++ errorText))
  else
    match resp_body response with
    | None => throw (new_Error "Ollama response body is null")
    | Some body => ret (parseStreamingResponse body)
    end.

Definition contentsArray (u : ContentListUnion) : list Content :=
  match u with One c => [c] | Many l => l end.

(** The nested loops that gather [part.text + ' ']. *)
Definition gatherText (start : string) (cs : list Content) : string :=
  fold_left
    (fun (text0 : string) (contentObj : Content) =>
       match parts contentObj with
       | Some ps =>
           fold_left
             (fun (text1 : string) (part : Part) =>
                if JS.truthy (text part)
                then text1 ++ match text part with Some t => t | None => "" end ++ " "
                else text1)
             ps text0
       | None => text0
       end)
    cs start.

(** [countTokens] *)
Definition countTokens (request : CountTokensParameters) : IO CountTokensResponse :=
  let totalText :=
    match count_config request with
    | Some cfg =>
        match cfg_systemInstruction cfg with
        | Some systemContent => gatherText "" [systemContent]
        | None => ""
        end
    | None => ""
    end in
  let totalText := gatherText totalText (contentsArray (count_contents request)) in
  ret {| totalTokens := estimateTokenCount totalText |}.

(** [embedContent] *)
Definition embedContent (this : OllamaContentGenerator)
  (request : EmbedContentParameters) : IO EmbedContentResponse :=
  let text := gatherText "" (contentsArray (embed_contents request)) in
  if JS.is_empty (JS.trim text) then
    throw (new_Error "No text content found for embedding")
  else
    let ollamaRequest :=
      {| emb_model := embed_model request; prompt := JS.trim text |} in
    try_catch
      (response <- fetch_ {| url := baseUrl this ++ "/api/embeddings";
                             method := "POST";
                             contentType := "application/json";
                             body := EmbeddingBody ollamaRequest |} ;;
       if negb (ok response) then
         errorText <- ret (resp_text response) ;;
         throw (new_Error ("Ollama embeddings API error ("
                             ++ JS.string_of_Z (status response)
                             ++ "): " ++ errorText))
       else
         ollamaResponse <- await (json_embedding response) ;;
         ret {| embeddings := [ {| values := embedding ollamaResponse |} ] |})
      (fun error =>
         match error with
         | ErrorObject e =>
             if JS.includes (message e) "ECONNREFUSED"
             then throw (new_Error (connectionMessage this))
             else throw error
         | OtherValue _ => throw error
         end).

(** The request that [embedContent] posts. *)
Definition embeddingsRequest (this : OllamaContentGenerator)
  (request : EmbedContentParameters) : Request :=
  {| url := baseUrl this ++ "/api/embeddings"; method := "POST";
     contentType := "application/json";
     body := EmbeddingBody
               {| emb_model := embed_model request;
                  prompt := JS.trim (gatherText ""
                              (contentsArray (embed_contents request))) |} |}.

(** What a candidate line adds to the decoded records and to the log,
    whether the loop or the final flush handles it. *)
Definition decodedOf (line : string) : list OllamaStreamChunk :=
  if JS.is_empty (JS.trim line) then []
  else match JSON_parse line with Some c => [c] | None => [] end.

Definition loggedOf (line : string) : list string :=
  if JS.is_empty (JS.trim line) then []
  else match JSON_parse line with Some _ => [] | None => [line] end.

(** The test of the loop before its [yield]: [hasParts || chunk.done]. *)
Definition forwarded (c : OllamaStreamChunk) : bool :=
  hasParts (convertStreamChunkToGeminiResponse c false) || done c.

(** What a candidate line makes the generator yield, in the loop and in the
    final flush. *)
Definition yieldedByLoop (line : string) : list GenerateContentResponse :=
  if JS.is_empty (JS.trim line) then []
  else match JSON_parse line with
       | Some c => if forwarded c
                   then [convertStreamChunkToGeminiResponse c false] else []
       | None => []
       end.

Definition yieldedByFlush (line : string) : list GenerateContentResponse :=
  if JS.is_empty (JS.trim line) then []
  else match JSON_parse line with
       | Some c => [convertStreamChunkToGeminiResponse c false]
       | None => []
       end.

(** A valid record: a non-blank line without a line feed that parses. *)
Definition validRecord (rc : string * OllamaStreamChunk) : Prop :=
  singleLine (fst rc) = true
  /\ JS.trim (fst rc) <> ""
  /\ JSON_parse (fst rc) = Some (snd rc).

End Adapter.

(** ** A concrete platform for the examples

    The general theorems below hold for every decoder and every parser; the
    closed examples run on this instance: texts of 7-bit characters, where
    UTF-8 decoding maps each byte to the character of the same code, and the
    parser of module [Json] followed by the reads that the converter makes
    of the parsed value. *)

Definition asciiDecoder : TextDecoder :=
  {| dstate := unit; dinit := tt;
     dstep := fun _ b => (tt, String (ascii_of_byte b) EmptyString) |}.

Definition bytes (s : string) : list byte := list_byte_of_string s.

Definition json_string (o : option Json.t) : option string :=
  match o with Some (Json.Str s) => Some s | _ => None end.

Definition json_count (o : option Json.t) : option Z :=
  match o with Some (Json.Number n) => Some n | _ => None end.

Definition json_truthy (o : option Json.t) : bool :=
  match o with
  | None | Some Json.Null | Some (Json.Bool false) => false
  | Some (Json.Number n) => negb (n =? 0)%Z
  | Some (Json.Str s) => negb (JS.is_empty s)
  | Some _ => true
  end.

(** The members of a parsed line that [convertStreamChunkToGeminiResponse]
    and the loop read; a member read on [null] throws. *)
Definition readChunk (v : Json.t) : option OllamaStreamChunk :=
  match v with
  | Json.Null => None
  | _ =>
      Some {| chunk_model :=
                match json_string (Json.field "model" v) with
                | Some m => m
                | None => ""
                end;
              chunk_message :=
                match Json.field "message" v with
                | Some (Json.Object m) =>
                    Some {| cm_role :=
                              match json_string (Json.get "role" m) with
                              | Some r => r
                              | None => ""
                              end;
                            cm_content :=
                              match json_string (Json.get "content" m) with
                              | Some c => c
                              | None => ""
                              end |}
                | _ => None
                end;
              done := json_truthy (Json.field "done" v);
              done_reason := json_string (Json.field "done_reason" v);
              prompt_eval_count := json_count (Json.field "prompt_eval_count" v);
              eval_count := json_count (Json.field "eval_count" v) |}
  end.

Definition parseChunk (line : string) : option OllamaStreamChunk :=
  match Json.parse line with
  | Some v => readChunk v
  | None => None
  end.

(** A transport that refuses every connection. *)
Definition refusingFetch (_ : Request) : Thrown + Response :=
  inl (ErrorObject {| name := "Error";
                      message := "connect ECONNREFUSED 127.0.0.1:11434" |}).

(** A server that answers every request with one and the same response. *)
Definition constantFetch (r : Response) (_ : Request) : Thrown + Response := inr r.

(** [text] is the only member of a part. *)
Definition userText (s : string) : Content :=
  {| role := Some "user"; parts := Some [textPart s] |}.

(** A turn with one text part whose text is empty. *)
Definition emptyTextTurn : Content := userText "".

(** A turn whose only part is inline data that is not an image. *)
Definition pdfTurn : Content :=
  {| role := Some "user";
     parts := Some [ {| text := None;
                        inlineData := Some {| mimeType := Some "application/pdf";
                                              data := "JVBERi0=" |};
                        functionCall := None; functionResponse := None |} ] |}.

Definition localhost : OllamaContentGenerator := constructor "http://localhost:11434/".

Definition blankEmbed : EmbedContentParameters :=
  {| embed_model := "nomic-embed-text";
     embed_contents := Many [userText " "; userText ""] |}.

Definition helloEmbed : EmbedContentParameters :=
  {| embed_model := "nomic-embed-text"; embed_contents := One (userText "hello") |}.

Definition embeddingResponse : Response :=
  {| ok := true; status := 200; resp_text := "";
     json_chat := inl (new_Error "not a chat response");
     json_embedding := inr {| embedding := [(1 # 2)%Q; (1 # 4)%Q] |};
     resp_body := None |}.

(** A record without a message and with [done] false. *)
Definition idleChunk : OllamaStreamChunk :=
  {| chunk_model := "m"; chunk_message := None; done := false;
     done_reason := None; prompt_eval_count := None; eval_count := None |}.

(** The two records and the malformed line of the example stream. *)
Definition hiRecord : string * OllamaStreamChunk :=
  (JS.q "{'model':'m','message':{'role':'assistant','content':'Hi'},'done':false}",
   {| chunk_model := "m";
      chunk_message := Some {| cm_role := "assistant"; cm_content := "Hi" |};
      done := false; done_reason := None;
      prompt_eval_count := None; eval_count := None |}).

Definition doneRecord : string * OllamaStreamChunk :=
  (JS.q "{'model':'m','done':true,'done_reason':'stop','prompt_eval_count':5,'eval_count':3}",
   {| chunk_model := "m"; chunk_message := None;
      done := true; done_reason := Some "stop";
      prompt_eval_count := Some 5%Z; eval_count := Some 3%Z |}).

Definition brokenLine : string := JS.q "{'model':'m','message':{'role'".

(** The example stream, cut in the middle of its first record and in the
    middle of the malformed line. *)
Definition brokenStream : list (list byte) :=
  [ bytes (JS.q "{'model':'m','message':{'role':'assi");
    bytes (JS.q "stant','content':'Hi'},'done':false}" ++ String JS.newline ""
           ++ JS.q "{'model':'m',");
    bytes (JS.q "'message':{'role'" ++ String JS.newline "" ++ fst doneRecord
           ++ String JS.newline "") ].


(** ** Readings of the converted values, for the statements of Part III *)

(** [getBaseUrl] *)
Definition getBaseUrl (this : OllamaContentGenerator) : string := baseUrl this.





(** [response.candidates[0]] and its members. *)
Definition firstCandidate (r : GenerateContentResponse) : option Candidate :=
  match candidates r with Some (c :: _) => Some c | _ => None end.

Definition candidateParts (r : GenerateContentResponse) : list Part :=
  match firstCandidate r with
  | Some c => match cand_content c with
              | Some ct => match parts ct with Some ps => ps | None => [] end
              | None => []
              end
  | None => []
  end.

Definition candidateFinishReason (r : GenerateContentResponse) : option FinishReason :=
  match firstCandidate r with Some c => finishReason c | None => None end.

(** The concatenation of the texts of the first candidate's parts. *)
Definition fragmentText (r : GenerateContentResponse) : string :=
  fold_right append ""
    (map (fun p => match text p with Some t => t | None => "" end) (candidateParts r)).

(** [chunk.message?.content], the empty string when absent. *)
Definition chunkText (c : OllamaStreamChunk) : string :=
  match chunk_message c with Some m => cm_content m | None => "" end.


(** The text that [countTokens] hands to the estimator. *)
Definition countedText (request : CountTokensParameters) : string :=
  gatherText
    (match count_config request with
     | Some cfg => match cfg_systemInstruction cfg with
                   | Some systemContent => gatherText "" [systemContent]
                   | None => ""
                   end
     | None => ""
     end)
    (contentsArray (count_contents request)).

(** The full response that carries what a terminal chunk carries. *)
Definition responseOfChunk (chunk : OllamaStreamChunk) : OllamaResponse :=
  {| resp_model := chunk_model chunk;
     resp_message := {| msg_role := assistant; content := chunkText chunk;
                        images := None; tool_calls := None |};
     resp_done := done chunk;
     resp_done_reason := done_reason chunk;
     resp_prompt_eval_count := prompt_eval_count chunk;
     resp_eval_count := eval_count chunk |}.

(** A response of the server with the given status and body text only. *)
Definition errorResponse (code : Z) (txt : string) : Response :=
  {| ok := false; status := code; resp_text := txt;
     json_chat := inl (new_Error "no JSON");
     json_embedding := inl (new_Error "no JSON");
     resp_body := None |}.

(** A transport that fails every request with the given value. *)
Definition failingFetch (t : Thrown) (_ : Request) : Thrown + Response := inl t.

(* ================================================================== *)
(** * Part II: properties *)
(* ================================================================== *)

(** ** The model on concrete inputs *)

Example parse_ex1 :
  Json.parse (JS.q "{'model':'m', 'done':false, 'n':[1,-20,null], 's':'a\'bA'}")
  = Some (Json.Object [("model", Json.Str "m"); ("done", Json.Bool false);
                       ("n", Json.Array [Json.Number 1; Json.Number (-20); Json.Null]);
                       ("s", Json.Str (String "a" (String JS.dquote "bA")))]).
Proof. vm_compute. reflexivity. Qed.

Example tok1 : estimateTokenCount "Hello, world! 42" = 5%Z.
Proof. vm_compute. reflexivity. Qed.
Example tok2 : estimateTokenCountForCode "const fooBarBazQux = 'x';" = 10%Z.
Proof. vm_compute. reflexivity. Qed.
Example tok3 : Re.split_code 0 "a `b` c ```js
x = 1``` d" = ["a "; "`b`"; " c "; "```js
x = 1```"; " d"].
Proof. vm_compute. reflexivity. Qed.
Example tok4 : estimateTokenCountMixed "a `b` c ```js
x = 1``` d" = 10%Z.
Proof. vm_compute. reflexivity. Qed.

Example stream_ex1 :
  decoded (parseStreamingResponse asciiDecoder parseChunk
     [bytes (JS.q "{'model':'m','message':{'role':'assistant','content':'Hi'},'done':false}
{'model':'m','done':true,'done_reason':'stop','prompt_eval_count':5,'eval_count':3}
")])
  = [ {| chunk_model := "m"; chunk_message := Some {| cm_role := "assistant"; cm_content := "Hi" |};
         done := false; done_reason := None; prompt_eval_count := None; eval_count := None |};
      {| chunk_model := "m"; chunk_message := None;
         done := true; done_reason := Some "stop"; prompt_eval_count := Some 5%Z; eval_count := Some 3%Z |} ].
Proof. vm_compute. reflexivity. Qed.

(** The example stream delivered one byte at a time and in one piece. *)
Example one_byte_chunks :
  parseStreamingResponse asciiDecoder parseChunk
    (map (fun b => [b]) (concat brokenStream))
  = parseStreamingResponse asciiDecoder parseChunk [concat brokenStream].
Proof. vm_compute. reflexivity. Qed.

Example round_trip :
  messages (convertToOllamaRequest
              {| model := "llama3"; contents := [userText "Hi"]; config := None;
                 systemInstruction :=
                   Some {| role := None; parts := Some [textPart "Be concise"] |};
                 tools := None |} false)
  = [ {| msg_role := system; content := "Be concise";
         images := None; tool_calls := None |};
      {| msg_role := user; content := "Hi"; images := None; tool_calls := None |} ].
Proof. reflexivity. Qed.

Example full_response :
  convertToGeminiResponse
    {| resp_model := "llama3";
       resp_message := {| msg_role := assistant; content := "Hello";
                          images := None; tool_calls := None |};
       resp_done := true; resp_done_reason := Some "stop";
       resp_prompt_eval_count := Some 5%Z; resp_eval_count := Some 3%Z |}
  = {| candidates :=
         Some [ {| cand_content := Some {| role := Some "model";
                                           parts := Some [textPart "Hello"] |};
                   finishReason := Some STOP; index := 0 |} ];
       usageMetadata := Some {| promptTokenCount := 5; candidatesTokenCount := 3;
                                totalTokenCount := 8 |};
       modelVersion := Some "llama3" |}.
Proof. reflexivity. Qed.

(** ** Request conversion *)

Section RequestConversion.

(** The loop over the turns appends the messages of the turns, in order,
    to what was there before. *)
Lemma fold_messages (cs : list Content) (acc : list OllamaMessage) :
  fold_left (fun msgs c => match convertContentToMessage c with
                           | Some m => (msgs ++ [m])%list
                           | None => msgs
                           end) cs acc
  = (acc ++ flat_map (fun c => match convertContentToMessage c with
                               | Some m => [m]
                               | None => []
                               end) cs)%list.
Proof.
  revert acc.
  induction cs as [|c cs IH]; intros acc; simpl.
  - now rewrite app_nil_r.
  - rewrite IH. destruct (convertContentToMessage c); simpl.
    + now rewrite <- app_assoc.
    + reflexivity.
Qed.

Lemma convertContentToMessage_none (c : Content) :
  convertContentToMessage c = None <-> parts c = None \/ parts c = Some [].
Proof.
  unfold convertContentToMessage.
  destruct (parts c) as [[|p ps]|]; split; intros H; auto;
    try discriminate; destruct H; discriminate.
Qed.

(** Only [functionResponse] parts change the role. *)
Lemma convertPart_role (b : MessageBuilder) (p : Part) :
  b_role (convertPart b p) = if isFunctionResponsePart p then tool else b_role b.
Proof.
  unfold convertPart, isFunctionResponsePart.
  destruct (JS.truthy (text p)); simpl; [reflexivity|].
  destruct (inlineData p) as [blob|]; simpl.
  - destruct (mimeType blob) as [m|]; [destruct (JS.startsWith m "image/")|];
      reflexivity.
  - destruct (functionCall p); simpl; [reflexivity|].
    destruct (functionResponse p); reflexivity.
Qed.

Lemma fold_convertPart_role (ps : list Part) (b : MessageBuilder) :
  b_role (fold_left convertPart ps b)
  = if existsb isFunctionResponsePart ps then tool else b_role b.
Proof.
  revert b.
  induction ps as [|p ps IH]; intros b; simpl; [reflexivity|].
  rewrite IH, convertPart_role.
  destruct (isFunctionResponsePart p); simpl;
    destruct (existsb isFunctionResponsePart ps); reflexivity.
Qed.

End RequestConversion.

(** C1, as stated, is false: a request whose only turn has one empty text
    part is converted to a message list that holds a message with empty
    content, no images and no tool calls. *)
Lemma empty_turn_is_appended :
  ~ (forall (params : GenerateContentParameters) (stream : bool) (m : OllamaMessage),
        In m (messages (convertToOllamaRequest params stream)) ->
        ~ (content m = "" /\ images m = None /\ tool_calls m = None)).
Proof.
  intros H.
  apply (H (turnsOnly [emptyTextTurn]) false
           {| msg_role := user; content := ""; images := None; tool_calls := None |}).
  - vm_compute. left. reflexivity.
  - repeat split.
Qed.

Example pdf_turn_is_appended :
  messages (convertToOllamaRequest (turnsOnly [pdfTurn]) false)
  = [ {| msg_role := user; content := ""; images := None; tool_calls := None |} ].
Proof. reflexivity. Qed.

(** C1 (amended): a turn is dropped exactly when its parts list is absent or
    empty; the message list of the request is the system message, if any,
    followed by one message for each other turn, in the order of the turns. *)
Theorem turn_dropped_iff_no_parts
  (params : GenerateContentParameters) (stream : bool) :
  (forall c : Content,
      convertContentToMessage c = None <-> parts c = None \/ parts c = Some [])
  /\ messages (convertToOllamaRequest params stream)
     = (systemMessages params
        ++ flat_map (fun c => match convertContentToMessage c with
                              | Some m => [m]
                              | None => []
                              end) (contents params))%list.
Proof.
  split.
  - apply convertContentToMessage_none.
  - unfold convertToOllamaRequest; simpl. apply fold_messages.
Qed.

(** C10: a turn whose role is neither [model] nor [function] (absent or any
    other string) yields a message of role [user], unless one of its parts is
    a function response, in which case the role is [tool]; a turn without
    parts yields no message. *)
Theorem role_defaults_to_user (r : option string) (ps : list Part) :
  r <> Some "model" -> r <> Some "function" ->
  match convertContentToMessage {| role := r; parts := Some ps |} with
  | Some m => msg_role m = if existsb isFunctionResponsePart ps then tool else user
  | None => ps = []
  end.
Proof.
  intros Hm Hf.
  unfold convertContentToMessage; simpl.
  destruct ps as [|p ps]; [reflexivity|].
  cbn [msg_role]. rewrite fold_convertPart_role.
  destruct (existsb isFunctionResponsePart (p :: ps)); [reflexivity|].
  cbn [b_role].
  destruct r as [r|]; [|reflexivity].
  destruct (String.eqb r "model") eqn:E1.
  - apply String.eqb_eq in E1. congruence.
  - destruct (String.eqb r "function") eqn:E2; [|reflexivity].
    apply String.eqb_eq in E2. congruence.
Qed.

Lemma role_defaults_to_user_witness :
  match convertContentToMessage
          {| role := Some "system";
             parts := Some [textPart "Be concise";
                            {| text := None; inlineData := None; functionCall := None;
                               functionResponse := Some {| response := Some (Json.Object []) |} |}] |}
  with
  | Some m => msg_role m = tool
  | None => False
  end
  /\ match convertContentToMessage {| role := None; parts := Some [textPart "Hi"] |} with
     | Some m => msg_role m = user
     | None => False
     end.
Proof.
  split.
  - pose proof (role_defaults_to_user (Some "system")
                  [textPart "Be concise";
                   {| text := None; inlineData := None; functionCall := None;
                      functionResponse := Some {| response := Some (Json.Object []) |} |}]) as H.
    simpl in H. apply H; discriminate.
  - pose proof (role_defaults_to_user None [textPart "Hi"]) as H.
    simpl in H. apply H; discriminate.
Defined.

(** ** Response conversion *)

(** C7: in both response conversions the total is the sum of the two other
    counters, each the server's counter or 0 when it is absent; the stream
    conversion defines the usage metadata exactly on chunks with [done]. *)
Theorem usage_total_is_sum (response : OllamaResponse) (chunk : OllamaStreamChunk)
  (isFirst : bool) :
  match usageMetadata (convertToGeminiResponse response) with
  | Some u =>
      promptTokenCount u = match resp_prompt_eval_count response with
                           | Some n => n | None => 0%Z end
      /\ candidatesTokenCount u = match resp_eval_count response with
                                  | Some n => n | None => 0%Z end
      /\ totalTokenCount u = (promptTokenCount u + candidatesTokenCount u)%Z
  | None => False
  end
  /\ match usageMetadata (convertStreamChunkToGeminiResponse chunk isFirst) with
     | Some u =>
         done chunk = true
         /\ promptTokenCount u = match prompt_eval_count chunk with
                                 | Some n => n | None => 0%Z end
         /\ candidatesTokenCount u = match eval_count chunk with
                                     | Some n => n | None => 0%Z end
         /\ totalTokenCount u = (promptTokenCount u + candidatesTokenCount u)%Z
     | None => done chunk = false
     end.
Proof.
  assert (Hz : forall x, or_zero x = match x with Some n => n | None => 0%Z end).
  { intros [n|]; simpl; [|reflexivity].
    destruct (Z.eqb_spec n 0); congruence. }
  split.
  - simpl. rewrite !Hz. repeat split.
  - unfold convertStreamChunkToGeminiResponse; simpl.
    destruct (done chunk); simpl; [|reflexivity].
    rewrite !Hz. repeat split.
Qed.

(** C9: the options of the request are the fields that the caller set,
    under the renames of the converter, an empty [stopSequences] counting as
    unset; they are absent exactly when nothing was set. *)
Theorem options_copy_set_fields (cfg : GenerateContentConfig)
  (params : GenerateContentParameters) (stream : bool) :
  match convertGenerationConfig (Some cfg) with
  | Some o =>
      o_temperature o = temperature cfg
      /\ top_p o = topP cfg
      /\ top_k o = topK cfg
      /\ num_predict o = maxOutputTokens cfg
      /\ stop o = match stopSequences cfg with
                  | Some (s :: l) => Some (s :: l)
                  | _ => None
                  end
      /\ o_seed o = seed cfg
      /\ num_ctx o = None
      /\ (has (temperature cfg) || has (topP cfg) || has (topK cfg)
          || has (maxOutputTokens cfg)
          || match stopSequences cfg with Some (_ :: _) => true | _ => false end
          || has (seed cfg)) = true
  | None =>
      temperature cfg = None /\ topP cfg = None /\ topK cfg = None
      /\ maxOutputTokens cfg = None
      /\ (stopSequences cfg = None \/ stopSequences cfg = Some [])
      /\ seed cfg = None
  end
  /\ convertGenerationConfig None = None
  /\ options (convertToOllamaRequest params stream)
     = convertGenerationConfig (config params).
Proof.
  split; [|split; reflexivity].
  unfold convertGenerationConfig, Object_keys; cbn [o_temperature top_p top_k
    num_predict stop o_seed num_ctx].
  destruct (temperature cfg), (topP cfg), (topK cfg), (maxOutputTokens cfg),
    (stopSequences cfg) as [[|s l]|], (seed cfg); simpl; intuition auto.
Qed.

(** ** The facade: validation and error classification *)

Section Facade.

Variable fetch : Request -> Thrown + Response.
Variable decoder : TextDecoder.
Variable JSON_parse : string -> option OllamaStreamChunk.

Lemma is_empty_true (s : string) : JS.is_empty s = true <-> s = "".
Proof. destruct s; simpl; split; congruence. Qed.

Lemma prefix_app (p s : string) : String.prefix p (p ++ s) = true.
Proof.
  induction p as [|a p IH]; simpl; [now destruct s|].
  destruct (ascii_dec a a); [assumption|congruence].
Qed.

Lemma append_assoc (a b c : string) : (a ++ b) ++ c = a ++ b ++ c.
Proof. induction a as [|x a IH]; simpl; [reflexivity|now rewrite IH]. Qed.

Lemma includes_prefix (s t : string) :
  String.prefix t s = true -> JS.includes s t = true.
Proof.
  intros H.
  replace (JS.includes s t)
    with (if String.prefix t s then true
          else match s with
               | EmptyString => false
               | String _ r => JS.includes r t
               end) by now destruct s.
  now rewrite H.
Qed.

Lemma includes_app (a b c : string) : JS.includes (a ++ b ++ c) b = true.
Proof.
  induction a as [|x a IH].
  - cbn [append]. apply includes_prefix, prefix_app.
  - cbn [append JS.includes]. rewrite IH.
    now destruct (String.prefix b (String x (a ++ b ++ c))).
Qed.

(** The message of the connection error names the endpoint and says how to
    start the server. *)
Lemma connectionMessage_contents (this : OllamaContentGenerator) :
  JS.includes (connectionMessage this) (baseUrl this) = true
  /\ JS.includes (connectionMessage this) "ollama serve" = true.
Proof.
  split.
  - apply includes_app.
  - unfold connectionMessage.
    replace ("Cannot connect to Ollama at " ++ baseUrl this ++ ". " ++
             "Please ensure Ollama is running (try: ollama serve)")
      with (("Cannot connect to Ollama at " ++ baseUrl this ++ ". " ++
             "Please ensure Ollama is running (try: ") ++ "ollama serve" ++ ")").
    + apply includes_app.
    + rewrite !append_assoc. reflexivity.
Qed.

(** [generateContent] and [embedContent] turn a refused connection into the
    connection error. *)
Lemma generateContent_connection_refused (this : OllamaContentGenerator)
  (request : GenerateContentParameters) (id : string) (log : list Request)
  (e : JSError) :
  fetch (chatRequest this (convertToOllamaRequest request false))
    = inl (ErrorObject e) ->
  JS.includes (message e) "ECONNREFUSED" = true ->
  name e <> "AbortError" ->
  snd (generateContent fetch this request id log)
  = inl (new_Error (connectionMessage this)).
Proof.
  intros Hf Hm Hn.
  unfold generateContent, try_catch, bind, fetch_. rewrite Hf.
  destruct (String.eqb (name e) "AbortError") eqn:E.
  - apply String.eqb_eq in E. contradiction.
  - rewrite Hm. reflexivity.
Qed.

Lemma embedContent_connection_refused (this : OllamaContentGenerator)
  (request : EmbedContentParameters) (log : list Request) (e : JSError) :
  JS.trim (gatherText "" (contentsArray (embed_contents request))) <> "" ->
  fetch (embeddingsRequest this request) = inl (ErrorObject e) ->
  JS.includes (message e) "ECONNREFUSED" = true ->
  snd (embedContent fetch this request log)
  = inl (new_Error (connectionMessage this)).
Proof.
  intros Ht Hf Hm.
  unfold embedContent.
  destruct (JS.is_empty _) eqn:E; [apply is_empty_true in E; contradiction|].
  unfold try_catch, bind, fetch_.
  fold (embeddingsRequest this request). rewrite Hf, Hm. reflexivity.
Qed.

(** [generateContentStream] has no handler: what [fetch] throws is what
    the caller gets. *)
Lemma generateContentStream_rethrows (this : OllamaContentGenerator)
  (request : GenerateContentParameters) (id : string) (log : list Request)
  (t : Thrown) :
  fetch (chatRequest this (convertToOllamaRequest request true)) = inl t ->
  snd (generateContentStream fetch decoder JSON_parse this request id log) = inl t.
Proof.
  intros Hf. unfold generateContentStream, bind, fetch_. now rewrite Hf.
Qed.

End Facade.

(** C8: when the gathered text is empty after trimming, [embedContent]
    throws the validation error and the request log is unchanged; otherwise
    it issues exactly one request, a POST to the embeddings endpoint, and a
    successful exchange gives the embedding. *)
Theorem embed_validates_before_network
  (fetch : Request -> Thrown + Response) (this : OllamaContentGenerator)
  (request : EmbedContentParameters) (log : list Request) :
  let text := gatherText "" (contentsArray (embed_contents request)) in
  (JS.trim text = "" ->
   embedContent fetch this request log
   = (log, inl (new_Error "No text content found for embedding")))
  /\ (JS.trim text <> "" ->
      fst (embedContent fetch this request log)
      = (log ++ [embeddingsRequest this request])%list
      /\ url (embeddingsRequest this request) = baseUrl this ++ "/api/embeddings"
      /\ method (embeddingsRequest this request) = "POST"
      /\ forall (r : Response) (v : OllamaEmbeddingResponse),
           fetch (embeddingsRequest this request) = inr r ->
           ok r = true -> json_embedding r = inr v ->
           snd (embedContent fetch this request log)
           = inr {| embeddings := [ {| values := embedding v |} ] |}).
Proof.
  intros text. unfold embedContent, embeddingsRequest. fold text.
  split; intros Ht.
  - rewrite Ht. reflexivity.
  - destruct (JS.is_empty (JS.trim text)) eqn:E;
      [apply is_empty_true in E; contradiction|].
    unfold try_catch, bind, fetch_, await.
    repeat split.
    + match goal with |- context [fetch ?r] => destruct (fetch r) as [t|r'] end;
        simpl.
      * destruct t as [e|v]; [destruct (JS.includes (message e) "ECONNREFUSED")|];
          reflexivity.
      * destruct (ok r'); simpl;
          [|match goal with
            | |- context [JS.includes ?a ?b] => destruct (JS.includes a b)
            end; reflexivity].
        destruct (json_embedding r') as [t|v]; simpl; [|reflexivity].
        destruct t as [e|w]; [destruct (JS.includes (message e) "ECONNREFUSED")|];
          reflexivity.
    + intros r v Hf Hok Hj. rewrite Hf. simpl. rewrite Hok. simpl.
      rewrite Hj. reflexivity.
Qed.

Lemma embed_validates_before_network_witness :
  embedContent refusingFetch localhost blankEmbed []
  = ([], inl (new_Error "No text content found for embedding"))
  /\ fst (embedContent (constantFetch embeddingResponse) localhost helloEmbed [])
     = [ {| url := "http://localhost:11434/api/embeddings"; method := "POST";
            contentType := "application/json";
            body := EmbeddingBody {| emb_model := "nomic-embed-text";
                                     prompt := "hello" |} |} ].
Proof.
  split.
  - apply (proj1 (embed_validates_before_network refusingFetch localhost blankEmbed [])).
    reflexivity.
  - apply (proj1 (proj2 (embed_validates_before_network
                           (constantFetch embeddingResponse) localhost helloEmbed [])
                    ltac:(vm_compute; discriminate))).
Defined.

(** C6 (the code departs from it): with a transport that refuses the
    connection, [generateContentStream] surfaces the transport's own error,
    whose message does not name the endpoint, while [generateContent] on the
    same request surfaces the connection error. *)
Theorem stream_connection_refused_is_not_classified :
  snd (generateContentStream refusingFetch asciiDecoder parseChunk localhost
         (turnsOnly [userText "Hi"]) "prompt-1" [])
  = inl (ErrorObject {| name := "Error";
                        message := "connect ECONNREFUSED 127.0.0.1:11434" |})
  /\ JS.includes "connect ECONNREFUSED 127.0.0.1:11434" (baseUrl localhost) = false
  /\ snd (generateContent refusingFetch localhost (turnsOnly [userText "Hi"])
            "prompt-1" [])
     = inl (new_Error (connectionMessage localhost)).
Proof. repeat split. Qed.

(** C2 (the code departs from it): a record without content and with [done]
    false that is left in the buffer when the body ends is yielded, as a
    fragment without parts; the same record followed by a newline is
    suppressed by the loop. *)
Theorem residual_fragment_is_not_filtered :
  parseStreamingResponse asciiDecoder parseChunk
    [bytes (JS.q "{'model':'m','done':false}")]
  = [Yielded idleChunk (convertStreamChunkToGeminiResponse idleChunk false)]
  /\ hasParts (convertStreamChunkToGeminiResponse idleChunk false) = false
  /\ done idleChunk = false
  /\ parseStreamingResponse asciiDecoder parseChunk
       [bytes (JS.q "{'model':'m','done':false}" ++ String JS.newline "")]
     = [Suppressed idleChunk].
Proof. vm_compute. repeat split. Qed.

(** ** The streaming decoder *)

Lemma append_empty_r (s : string) : s ++ "" = s.
Proof. induction s as [|c s IH]; simpl; [reflexivity|now rewrite IH]. Qed.

Section SplitLines.

Variable sep : ascii.

Lemma split_not_nil (s : string) : JS.split sep s <> [].
Proof.
  destruct s as [|c r]; simpl; [discriminate|].
  destruct (Ascii.eqb c sep); [discriminate|].
  destruct (JS.split sep r); discriminate.
Qed.

Lemma split_cons (c : ascii) (r : string) :
  JS.split sep (String c r)
  = if Ascii.eqb c sep then EmptyString :: JS.split sep r
    else match JS.split sep r with
         | h :: t => String c h :: t
         | [] => [String c EmptyString]
         end.
Proof. reflexivity. Qed.

(** Splitting a text received in two pieces: the complete lines of the
    first piece, then the split of its last, incomplete line followed by
    the second piece. *)
Lemma split_app (a b : string) :
  JS.split sep (a ++ b)
  = (removelast (JS.split sep a)
     ++ JS.split sep (last (JS.split sep a) EmptyString ++ b))%list.
Proof.
  induction a as [|c a IH].
  - reflexivity.
  - cbn [append]. rewrite !split_cons.
    pose proof (split_not_nil a) as Hne.
    destruct (Ascii.eqb c sep) eqn:E.
    + rewrite IH. destruct (JS.split sep a) as [|h t]; [contradiction|].
      reflexivity.
    + rewrite IH. destruct (JS.split sep a) as [|h t]; [contradiction|].
      destruct t as [|h' t'].
      * cbn [removelast last app append]. rewrite split_cons, E. reflexivity.
      * cbn [removelast last app]. reflexivity.
Qed.

(** Joining what [split] gave restores the text: no character is lost. *)
Lemma join_split (s : string) : JS.join (String sep "") (JS.split sep s) = s.
Proof.
  induction s as [|c r IH]; [reflexivity|].
  rewrite split_cons.
  pose proof (split_not_nil r) as Hne.
  destruct (Ascii.eqb_spec c sep) as [->|Hc].
  - unfold JS.join in *. cbn [String.concat].
    destruct (JS.split sep r) as [|h t]; [contradiction|].
    rewrite IH. reflexivity.
  - unfold JS.join in *.
    destruct (JS.split sep r) as [|h t]; [contradiction|].
    destruct t as [|h' t']; cbn [String.concat] in *.
    + now rewrite IH.
    + rewrite <- IH. reflexivity.
Qed.

End SplitLines.

Section SingleLines.

Lemma split_singleLine (s : string) :
  singleLine s = true -> JS.split JS.newline s = [s].
Proof.
  induction s as [|c r IH]; [reflexivity|].
  cbn [singleLine]. intros H. apply andb_true_iff in H as [Hc Hr].
  rewrite split_cons. apply negb_true_iff in Hc. rewrite Hc, (IH Hr).
  reflexivity.
Qed.

Lemma singleLine_last_split (s : string) :
  singleLine (last (JS.split JS.newline s) EmptyString) = true.
Proof.
  induction s as [|c r IH]; [reflexivity|].
  rewrite split_cons.
  pose proof (split_not_nil JS.newline r) as Hne.
  destruct (Ascii.eqb c JS.newline) eqn:E;
    destruct (JS.split JS.newline r) as [|h t]; try contradiction.
  - exact IH.
  - destruct t as [|h' t']; [|exact IH].
    cbn [last singleLine] in *. now rewrite E, IH.
Qed.

Lemma split_line_newline (x rest : string) :
  singleLine x = true ->
  JS.split JS.newline (x ++ String JS.newline rest)
  = x :: JS.split JS.newline rest.
Proof.
  induction x as [|c x IH]; intros H.
  - reflexivity.
  - cbn [singleLine] in H. apply andb_true_iff in H as [Hc Hx].
    apply negb_true_iff in Hc.
    cbn [append]. rewrite split_cons, Hc, (IH Hx). reflexivity.
Qed.

Lemma split_ndjson (lines : list string) (terminated : bool) :
  Forall (fun l => singleLine l = true) lines -> lines <> [] ->
  JS.split JS.newline (ndjson lines terminated)
  = if terminated then (lines ++ [EmptyString])%list else lines.
Proof.
  unfold ndjson, JS.join.
  induction 1 as [|x l Hx Hl IH]; intros Hne; [contradiction|].
  destruct l as [|y l].
  - cbn [String.concat]. destruct terminated.
    + now rewrite split_line_newline.
    + rewrite append_empty_r. now apply split_singleLine.
  - change (String.concat (String JS.newline "") (x :: y :: l))
      with (x ++ String JS.newline "" ++ String.concat (String JS.newline "") (y :: l)).
    replace ((x ++ String JS.newline "" ++ String.concat (String JS.newline "") (y :: l))
             ++ (if terminated then String JS.newline "" else ""))
      with (x ++ String JS.newline
                   (String.concat (String JS.newline "") (y :: l)
                    ++ (if terminated then String JS.newline "" else ""))).
    + rewrite split_line_newline by assumption.
      rewrite IH by discriminate. now destruct terminated.
    + rewrite append_assoc. reflexivity.
Qed.

End SingleLines.

Section Streaming.

Variable decoder : TextDecoder.
Variable JSON_parse : string -> option OllamaStreamChunk.


Lemma last_app_nonempty (A : Type) (l1 l2 : list A) (d : A) :
  l2 <> [] -> last (l1 ++ l2) d = last l2 d.
Proof.
  intros Hne. induction l1 as [|x l1 IH]; [reflexivity|].
  cbn [app last]. destruct (l1 ++ l2)%list eqn:E; [|exact IH].
  apply app_eq_nil in E. tauto.
Qed.

(** Decoding is a transduction: two chunks decode to the concatenation of
    their texts, the decoder state being carried across. *)
Lemma decode_app (st : dstate decoder) (a b : list byte) :
  decode decoder st (a ++ b)
  = let (st1, s1) := decode decoder st a in
    let (st2, s2) := decode decoder st1 b in
    (st2, s1 ++ s2).
Proof.
  revert st.
  induction a as [|x a IH]; intros st; cbn [app decode].
  - destruct (decode decoder st b). reflexivity.
  - destruct (dstep decoder st x) as [st1 s1]. rewrite IH.
    destruct (decode decoder st1 a) as [st2 s2]. destruct (decode decoder st2 b) as [st3 s3].
    now rewrite append_assoc.
Qed.

Lemma processLines_app (f : bool) (l1 l2 : list string) :
  processLines JSON_parse f (l1 ++ l2)
  = let (e1, f1) := processLines JSON_parse f l1 in
    let (e2, f2) := processLines JSON_parse f1 l2 in
    ((e1 ++ e2)%list, f2).
Proof.
  revert f.
  induction l1 as [|x l1 IH]; intros f; cbn [app processLines].
  - destruct (processLines JSON_parse f l2). reflexivity.
  - destruct (if JS.is_empty (JS.trim x) then ([], f) else parseLine JSON_parse f x)
      as [e0 f0].
    rewrite IH. destruct (processLines JSON_parse f0 l1) as [e1 f1].
    destruct (processLines JSON_parse f1 l2) as [e2 f2]. now rewrite app_assoc.
Qed.

(** The state after any sequence of chunks, in terms of the whole text
    decoded so far: every line but the last has been handled, once and in
    order, and the buffer is the last, unfinished line. *)
Lemma readAll_spec (chunks : list (list byte)) (st : ReaderState decoder) :
  singleLine (buffer decoder st) = true ->
  readAll decoder JSON_parse st chunks
  = let (d, txt) := decode decoder (dec decoder st) (concat chunks) in
    let lines := JS.split JS.newline (buffer decoder st ++ txt) in
    let (evs, f) := processLines JSON_parse (isFirst decoder st) (removelast lines) in
    (evs, {| dec := d; buffer := last lines EmptyString; isFirst := f |}).
Proof.
  revert st.
  induction chunks as [|c cs IH]; intros st Hb.
  - cbn [concat readAll decode].
    rewrite append_empty_r, (split_singleLine _ Hb).
    destruct st; reflexivity.
  - cbn [concat readAll]. unfold onChunk.
    rewrite decode_app.
    destruct (decode decoder (dec decoder st) c) as [d1 t1].
    destruct (decode decoder d1 (concat cs)) as [d2 t2] eqn:E2.
    rewrite <- append_assoc, (split_app _ (buffer decoder st ++ t1) t2).
    set (lines1 := JS.split JS.newline (buffer decoder st ++ t1)).
    destruct (processLines JSON_parse (isFirst decoder st) (removelast lines1))
      as [e1 f1] eqn:E1.
    rewrite IH by apply singleLine_last_split.
    cbn [dec buffer isFirst]. rewrite E2.
    set (lines2 := JS.split JS.newline (last lines1 "" ++ t2)).
    assert (Hne : lines2 <> []) by apply split_not_nil.
    rewrite removelast_app by assumption.
    rewrite last_app_nonempty by assumption.
    rewrite processLines_app, E1.
    destruct (processLines JSON_parse f1 (removelast lines2)). reflexivity.
Qed.

(** The loop from the initial state: the lines of the decoded text but the
    last have been handled, and the last one is the buffer. *)
Lemma readAll_initial (chunks : list (list byte)) :
  readAll decoder JSON_parse (initialState decoder) chunks
  = let text := snd (decode decoder (dinit decoder) (concat chunks)) in
    let lines := JS.split JS.newline text in
    (fst (processLines JSON_parse true (removelast lines)),
     {| dec := fst (decode decoder (dinit decoder) (concat chunks));
        buffer := last lines EmptyString;
        isFirst := snd (processLines JSON_parse true (removelast lines)) |}).
Proof.
  rewrite readAll_spec by reflexivity.
  cbn [initialState dec buffer isFirst append].
  destruct (decode decoder (dinit decoder) (concat chunks)) as [d txt].
  cbn [fst snd].
  destruct (processLines JSON_parse true (removelast (JS.split JS.newline txt))).
  reflexivity.
Qed.

(** C3: the events produced for a body do not depend on how the body is
    cut into chunks; after any chunks, the lines handled so far and the
    buffer are the split of the text decoded so far, so that joining them
    gives that text back. *)
Theorem chunk_boundaries_do_not_matter (chunks : list (list byte)) :
  parseStreamingResponse decoder JSON_parse chunks
  = parseStreamingResponse decoder JSON_parse [concat chunks]
  /\ (let text := snd (decode decoder (dinit decoder) (concat chunks)) in
      let lines := JS.split JS.newline text in
      readAll decoder JSON_parse (initialState decoder) chunks
      = (fst (processLines JSON_parse true (removelast lines)),
         {| dec := fst (decode decoder (dinit decoder) (concat chunks));
            buffer := last lines EmptyString;
            isFirst := snd (processLines JSON_parse true (removelast lines)) |})
      /\ JS.join (String JS.newline "")
           (removelast lines ++ [last lines EmptyString]) = text).
Proof.
  split; [|split].
  - unfold parseStreamingResponse.
    rewrite (readAll_initial chunks), (readAll_initial [concat chunks]).
    cbn [concat]. rewrite app_nil_r. reflexivity.
  - apply readAll_initial.
  - cbv zeta. rewrite <- app_removelast_last by apply split_not_nil.
    apply join_split.
Qed.

(** *** One malformed line *)

Lemma decoded_app (a b : list StreamEvent) :
  decoded (a ++ b) = (decoded a ++ decoded b)%list.
Proof.
  induction a as [|[c r|c|l] a IH]; cbn [app decoded]; now rewrite ?IH.
Qed.

Lemma logged_app (a b : list StreamEvent) :
  logged (a ++ b) = (logged a ++ logged b)%list.
Proof.
  induction a as [|[c r|c|l] a IH]; cbn [app logged]; now rewrite ?IH.
Qed.

Lemma processLines_decoded (f : bool) (lines : list string) :
  decoded (fst (processLines JSON_parse f lines)) = flat_map (decodedOf JSON_parse) lines
  /\ logged (fst (processLines JSON_parse f lines)) = flat_map (loggedOf JSON_parse) lines.
Proof.
  revert f.
  induction lines as [|x l IH]; intros f; [split; reflexivity|].
  cbn [processLines flat_map]. unfold decodedOf at 1, loggedOf at 1.
  destruct (JS.is_empty (JS.trim x)).
  - destruct (processLines JSON_parse f l) as [e2 f2] eqn:E. cbn [fst app].
    specialize (IH f). rewrite E in IH. exact IH.
  - unfold parseLine. destruct (JSON_parse x) as [c|].
    + destruct (hasParts _ || done c);
        destruct (processLines JSON_parse false l) as [e2 f2] eqn:E; cbn [fst app decoded logged];
        specialize (IH false); rewrite E in IH; cbn [fst] in IH;
        destruct IH as [-> ->]; split; reflexivity.
    + destruct (processLines JSON_parse f l) as [e2 f2] eqn:E; cbn [fst app decoded logged].
      specialize (IH f). rewrite E in IH. cbn [fst] in IH.
      destruct IH as [-> ->]; split; reflexivity.
Qed.

Lemma flushBuffer_decoded (b : string) :
  decoded (flushBuffer JSON_parse b) = decodedOf JSON_parse b /\ logged (flushBuffer JSON_parse b) = loggedOf JSON_parse b.
Proof.
  unfold flushBuffer, decodedOf, loggedOf.
  destruct (JS.is_empty (JS.trim b)); cbn [negb]; [split; reflexivity|].
  destruct (JSON_parse b); split; reflexivity.
Qed.

(** Every candidate line of the body is handled exactly once, by the loop
    or by the final flush. *)
Lemma parseStreamingResponse_lines (chunks : list (list byte)) :
  let lines := JS.split JS.newline
                 (snd (decode decoder (dinit decoder) (concat chunks))) in
  decoded (parseStreamingResponse decoder JSON_parse chunks)
  = flat_map (decodedOf JSON_parse) lines
  /\ logged (parseStreamingResponse decoder JSON_parse chunks)
     = flat_map (loggedOf JSON_parse) lines.
Proof.
  intros lines. unfold parseStreamingResponse.
  pose proof (readAll_initial chunks) as H.
  cbv zeta in H. fold lines in H. rewrite H. cbn [buffer].
  rewrite decoded_app, logged_app.
  destruct (processLines_decoded true (removelast lines)) as [-> ->].
  destruct (flushBuffer_decoded (last lines "")) as [-> ->].
  assert (Hl : lines = (removelast lines ++ [last lines ""])%list)
    by (apply app_removelast_last, split_not_nil).
  rewrite Hl at 3 6. rewrite !flat_map_app. cbn [flat_map].
  now rewrite !app_nil_r.
Qed.

Lemma yields_app (a b : list StreamEvent) :
  yields (a ++ b) = (yields a ++ yields b)%list.
Proof.
  induction a as [|[c r|c|l] a IH]; cbn [app yields]; now rewrite ?IH.
Qed.

Lemma processLines_yields (f : bool) (lines : list string) :
  yields (fst (processLines JSON_parse f lines))
  = flat_map (yieldedByLoop JSON_parse) lines.
Proof.
  revert f.
  induction lines as [|x l IH]; intros f; [reflexivity|].
  cbn [processLines flat_map]. unfold yieldedByLoop at 1.
  destruct (JS.is_empty (JS.trim x)).
  - specialize (IH f). destruct (processLines JSON_parse f l). exact IH.
  - unfold parseLine, forwarded. destruct (JSON_parse x) as [c|].
    + change (convertStreamChunkToGeminiResponse c f)
        with (convertStreamChunkToGeminiResponse c false).
      specialize (IH false).
      destruct (hasParts _ || done c);
        destruct (processLines JSON_parse false l);
        cbn [fst app yields] in *; now rewrite IH.
    + specialize (IH f). destruct (processLines JSON_parse f l).
      cbn [fst app yields] in *. exact IH.
Qed.

(** What the generator yields for a body: the loop's fragments for every
    line but the last, then the flush's fragment for the last one. *)
Lemma parseStreamingResponse_yields (chunks : list (list byte)) :
  let lines := JS.split JS.newline
                 (snd (decode decoder (dinit decoder) (concat chunks))) in
  yields (parseStreamingResponse decoder JSON_parse chunks)
  = (flat_map (yieldedByLoop JSON_parse) (removelast lines)
     ++ yieldedByFlush JSON_parse (last lines EmptyString))%list.
Proof.
  intros lines. unfold parseStreamingResponse.
  pose proof (readAll_initial chunks) as H.
  cbv zeta in H. fold lines in H. rewrite H. cbn [buffer].
  rewrite yields_app, processLines_yields. f_equal.
  unfold flushBuffer, yieldedByFlush.
  destruct (JS.is_empty (JS.trim (last lines ""))); cbn [negb]; [reflexivity|].
  destruct (JSON_parse (last lines "")); reflexivity.
Qed.

End Streaming.

Section Resilience.

Variable decoder : TextDecoder.
Variable JSON_parse : string -> option OllamaStreamChunk.

Lemma valid_records_decoded (records : list (string * OllamaStreamChunk)) :
  Forall (validRecord JSON_parse) records ->
  flat_map (decodedOf JSON_parse) (map fst records) = map snd records
  /\ flat_map (loggedOf JSON_parse) (map fst records) = [].
Proof.
  induction 1 as [|[r c] l [_ [Hb Hp]] _ [IHd IHl]]; [split; reflexivity|].
  cbn [map flat_map fst snd] in *. unfold decodedOf at 1, loggedOf at 1.
  destruct (JS.is_empty (JS.trim r)) eqn:E.
  - apply is_empty_true in E. contradiction.
  - rewrite Hp, IHd, IHl. split; reflexivity.
Qed.

(** The fragments that the loop yields pass the filter of the facade. *)
Lemma loop_yields_are_filtered (f : bool) (lines : list string) :
  Forall (fun ev => match ev with
                    | Yielded c r => hasParts r || done c = true
                    | _ => True
                    end) (fst (processLines JSON_parse f lines)).
Proof.
  revert f.
  induction lines as [|x l IH]; intros f; cbn [processLines]; [constructor|].
  destruct (JS.is_empty (JS.trim x)).
  - specialize (IH f). destruct (processLines JSON_parse f l). exact IH.
  - unfold parseLine. destruct (JSON_parse x) as [c|].
    + destruct (hasParts _ || done c) eqn:E;
        specialize (IH false); destruct (processLines JSON_parse false l);
        cbn [fst app] in *; constructor; auto.
    + specialize (IH f). destruct (processLines JSON_parse f l).
      cbn [fst app] in *. constructor; auto.
Qed.

(** On a line that is blank, that does not parse, or whose record passes
    the test of the loop, the loop and the flush yield the same. *)
Lemma flat_map_agree (A B : Type) (f g : A -> list B) (l : list A) :
  Forall (fun x => f x = g x) l -> flat_map f l = flat_map g l.
Proof.
  induction 1 as [|x l Hx _ IH]; [reflexivity|].
  cbn [flat_map]. now rewrite Hx, IH.
Qed.

Lemma valid_records_yielded (records : list (string * OllamaStreamChunk)) :
  Forall (validRecord JSON_parse) records ->
  Forall (fun rc => forwarded (snd rc) = true) records ->
  Forall (fun l => yieldedByLoop JSON_parse l = yieldedByFlush JSON_parse l)
    (map fst records)
  /\ flat_map (yieldedByFlush JSON_parse) (map fst records)
     = map (fun rc => convertStreamChunkToGeminiResponse (snd rc) false) records.
Proof.
  induction 1 as [|[r c] l [_ [Hb Hp]] _ IH]; intros Hf;
    [split; [constructor|reflexivity]|].
  inversion Hf as [|? ? Hc Hf']; subst. destruct (IH Hf') as [IH1 IH2].
  cbn [fst snd] in *.
  assert (E : JS.is_empty (JS.trim r) = false).
  { destruct (JS.is_empty (JS.trim r)) eqn:E; [|reflexivity].
    apply is_empty_true in E. contradiction. }
  split.
  - cbn [map fst]. constructor; [|exact IH1].
    unfold yieldedByLoop, yieldedByFlush. now rewrite E, Hp, Hc.
  - cbn [map flat_map fst snd]. rewrite IH2.
    unfold yieldedByFlush at 1. now rewrite E, Hp.
Qed.

(** C5: a body of valid records with one unparseable line put anywhere
    among them, cut into chunks in any way, decodes to exactly the given
    records, in order; the unparseable line is logged (unless it is blank)
    and nothing else is; when every record passes the emptiness test of the
    facade, the generator yields exactly one fragment for each record. *)
Theorem corrupted_line_is_skipped
  (records : list (string * OllamaStreamChunk)) (bad : string) (k : nat)
  (terminated : bool) (chunks : list (list byte)) :
  Forall (validRecord JSON_parse) records ->
  singleLine bad = true ->
  JSON_parse bad = None ->
  snd (decode decoder (dinit decoder) (concat chunks))
    = ndjson (insertAt k bad (map fst records)) terminated ->
  decoded (parseStreamingResponse decoder JSON_parse chunks) = map snd records
  /\ length (decoded (parseStreamingResponse decoder JSON_parse chunks))
     = length records
  /\ logged (parseStreamingResponse decoder JSON_parse chunks)
     = (if JS.is_empty (JS.trim bad) then [] else [bad])
  /\ (Forall (fun rc => forwarded (snd rc) = true) records ->
      yields (parseStreamingResponse decoder JSON_parse chunks)
      = map (fun rc => convertStreamChunkToGeminiResponse (snd rc) false) records).
Proof.
  intros Hv Hbad Hparse Htext.
  destruct (parseStreamingResponse_lines decoder JSON_parse chunks) as [Hd Hl].
  pose proof (parseStreamingResponse_yields decoder JSON_parse chunks) as Hy.
  cbv zeta in Hd, Hl, Hy. rewrite Htext in Hd, Hl, Hy.
  set (L := insertAt k bad (map fst records)) in *.
  assert (Hsingle : Forall (fun l => singleLine l = true) L).
  { assert (Hs : Forall (fun l => singleLine l = true) (map fst records)).
    { apply Forall_map. revert Hv. apply Forall_impl. intros rc H. apply H. }
    rewrite <- (firstn_skipn k (map fst records)) in Hs.
    apply Forall_app in Hs as [Hs1 Hs2].
    unfold L, insertAt. apply Forall_app. split; [assumption|].
    constructor; assumption. }
  assert (Hne : L <> []).
  { unfold L, insertAt. destruct (firstn k (map fst records)); discriminate. }
  rewrite (split_ndjson _ terminated Hsingle Hne) in Hd, Hl, Hy.
  assert (Hall : flat_map (decodedOf JSON_parse) L = map snd records
                 /\ flat_map (loggedOf JSON_parse) L
                    = if JS.is_empty (JS.trim bad) then [] else [bad]).
  { destruct (valid_records_decoded records Hv) as [Ed El].
    rewrite <- (firstn_skipn k (map fst records)) in Ed, El.
    rewrite flat_map_app in Ed, El.
    unfold L, insertAt. rewrite !flat_map_app. cbn [flat_map].
    unfold decodedOf at 2, loggedOf at 2. rewrite Hparse.
    apply app_eq_nil in El as [El1 El2]. rewrite El1, El2.
    destruct (JS.is_empty (JS.trim bad)); cbn [app]; split; auto. }
  destruct Hall as [Ad Al].
  assert (Hd' : decoded (parseStreamingResponse decoder JSON_parse chunks)
                = map snd records).
  { rewrite Hd. destruct terminated; [|exact Ad].
    rewrite flat_map_app, Ad. cbn. now rewrite app_nil_r. }
  split; [exact Hd'|split; [|split]].
  - rewrite Hd'. apply length_map.
  - rewrite Hl. destruct terminated; [|exact Al].
    rewrite flat_map_app, Al. cbn. now rewrite app_nil_r.
  - intros Hf. destruct (valid_records_yielded records Hv Hf) as [Hsame Hmap].
    assert (HbadY : yieldedByLoop JSON_parse bad = []
                    /\ yieldedByFlush JSON_parse bad = []).
    { unfold yieldedByLoop, yieldedByFlush. rewrite Hparse.
      destruct (JS.is_empty (JS.trim bad)); split; reflexivity. }
    destruct HbadY as [Hb1 Hb2].
    assert (HsameL : Forall (fun l => yieldedByLoop JSON_parse l
                                      = yieldedByFlush JSON_parse l) L).
    { rewrite <- (firstn_skipn k (map fst records)) in Hsame.
      apply Forall_app in Hsame as [Hs1 Hs2].
      unfold L, insertAt. apply Forall_app. split; [assumption|].
      constructor; [congruence|assumption]. }
    assert (HflushL : flat_map (yieldedByFlush JSON_parse) L
                      = map (fun rc => convertStreamChunkToGeminiResponse (snd rc) false)
                          records).
    { rewrite <- Hmap. rewrite <- (firstn_skipn k (map fst records)).
      unfold L, insertAt. rewrite !flat_map_app. cbn [flat_map].
      now rewrite Hb2. }
    rewrite Hy. destruct terminated.
    + rewrite removelast_last, last_last. cbn. rewrite app_nil_r.
      now rewrite (flat_map_agree _ _ _ _ L HsameL).
    + assert (HL : L = (removelast L ++ [last L ""])%list)
        by now apply app_removelast_last.
      rewrite <- HflushL. rewrite HL at 3. rewrite flat_map_app. cbn [flat_map].
      rewrite app_nil_r. f_equal.
      apply flat_map_agree.
      rewrite HL in HsameL. apply Forall_app in HsameL. tauto.
Qed.

End Resilience.

Lemma corrupted_line_is_skipped_witness :
  decoded (parseStreamingResponse asciiDecoder parseChunk brokenStream)
    = [snd hiRecord; snd doneRecord]
  /\ length (decoded (parseStreamingResponse asciiDecoder parseChunk brokenStream)) = 2
  /\ logged (parseStreamingResponse asciiDecoder parseChunk brokenStream)
     = [brokenLine]
  /\ yields (parseStreamingResponse asciiDecoder parseChunk brokenStream)
     = [convertStreamChunkToGeminiResponse (snd hiRecord) false;
        convertStreamChunkToGeminiResponse (snd doneRecord) false].
Proof.
  destruct (corrupted_line_is_skipped asciiDecoder parseChunk
              [hiRecord; doneRecord] brokenLine 1 true brokenStream)
    as [H1 [H2 [H3 H4]]].
  - repeat constructor; vm_compute; discriminate.
  - reflexivity.
  - reflexivity.
  - reflexivity.
  - split; [exact H1|split; [exact H2|split; [exact H3|]]].
    apply H4. repeat constructor.
Defined.

(** ** The token estimators *)

Section Ceilings.

Local Open Scope Q_scope.

Lemma Qceiling_ge_1 (q : Q) : 1 <= q -> (1 <= Qceiling q)%Z.
Proof.
  intros H. change 1%Z with (Qceiling (inject_Z 1)).
  now apply Qceiling_resp_le.
Qed.

Lemma Qceiling_ge_0 (q : Q) : 0 <= q -> (0 <= Qceiling q)%Z.
Proof.
  intros H. change 0%Z with (Qceiling (inject_Z 0)).
  now apply Qceiling_resp_le.
Qed.

Lemma inject_nat_nonneg (n : nat) : 0 <= inject_Z (Z.of_nat n).
Proof. change 0 with (inject_Z 0). rewrite <- Zle_Qle. lia. Qed.

Lemma Qceiling_pos (q : Q) : 0 < q -> (1 <= Qceiling q)%Z.
Proof.
  intros H. pose proof (Qle_ceiling q) as Hc.
  assert (Hlt : inject_Z 0 < inject_Z (Qceiling q)) by (change (inject_Z 0) with 0; lra).
  rewrite <- Zlt_Qlt in Hlt. lia.
Qed.

Lemma ceil_quarter_ge_1 (n : nat) : (0 < n)%nat -> (1 <= ceil_quarter n)%Z.
Proof.
  intros H. apply Qceiling_pos.
  unfold Qlt; simpl. lia.
Qed.

Lemma ceil_quarter_ge_0 (n : nat) : (0 <= ceil_quarter n)%Z.
Proof. apply Qceiling_ge_0. unfold Qle; simpl. lia. Qed.

(** A loop whose body adds at least [d] to the counter adds at least [d]
    when it runs at least once, and never decreases the counter. *)
Lemma fold_left_grows (step : Q -> string -> Q) :
  (forall a w, a <= step a w) ->
  forall ws a, a <= fold_left step ws a.
Proof.
  intros Hs ws. induction ws as [|w ws IH]; intros a; cbn [fold_left].
  - lra.
  - specialize (IH (step a w)). specialize (Hs a w). lra.
Qed.

Lemma fold_left_adds_one (step : Q -> string -> Q) :
  (forall a w, a + 1 <= step a w) ->
  forall ws a, ws <> [] -> a + 1 <= fold_left step ws a.
Proof.
  intros Hs [|w ws] a Hne; [contradiction|]. cbn [fold_left].
  assert (H1 : step a w <= fold_left step ws (step a w)).
  { apply fold_left_grows. intros b v. specialize (Hs b v). lra. }
  specialize (Hs a w). lra.
Qed.

End Ceilings.

Section Words.

Variable cls : ascii -> bool.

Lemma split_runs_not_nil (b : bool) (s : string) : Re.split_runs cls b s <> [].
Proof.
  revert b. induction s as [|c r IH]; intros b; cbn [Re.split_runs].
  - discriminate.
  - destruct (cls c); [destruct b; [apply IH|discriminate]|].
    unfold Re.cons_head. destruct (Re.split_runs cls false r); discriminate.
Qed.

(** A character outside the separator class makes a word. *)
Lemma words_exist (b : bool) (s : string) :
  (0 < Re.count (fun c => negb (cls c)) s)%nat ->
  non_empty (Re.split_runs cls b s) <> [].
Proof.
  revert b. induction s as [|c r IH]; intros b; cbn [Re.split_runs Re.count].
  - lia.
  - destruct (cls c); cbn [negb]; intros H.
    + destruct b; [apply IH; exact H|].
      unfold non_empty. cbn [filter String.length Nat.ltb Nat.leb].
      apply IH; exact H.
    + unfold Re.cons_head.
      destruct (Re.split_runs cls false r); unfold non_empty; cbn; discriminate.
Qed.

(** A text made of separators has no word. *)
Lemma no_words (b : bool) (s : string) :
  Re.count (fun c => negb (cls c)) s = 0%nat ->
  non_empty (Re.split_runs cls b s) = [].
Proof.
  revert b. induction s as [|c r IH]; intros b; cbn [Re.split_runs Re.count].
  - reflexivity.
  - destruct (cls c); cbn [negb]; intros H; [|discriminate].
    destruct b; [apply IH; exact H|].
    unfold non_empty. cbn [filter String.length Nat.ltb Nat.leb].
    apply IH; exact H.
Qed.

End Words.

Section Estimators.

Local Open Scope Q_scope.

Lemma wordStep_adds_one (a : Q) (w : string) : a + 1 <= wordStep a w.
Proof.
  unfold wordStep.
  pose proof (inject_nat_nonneg (Re.count Re.is_punctuation w)) as Hp.
  destruct (String.length w <=? 6)%nat; [lra|].
  destruct (String.length w <=? 12)%nat eqn:E; [lra|].
  assert (H1 : inject_Z 1 <= inject_Z (ceil_quarter (String.length w))).
  { rewrite <- Zle_Qle. apply ceil_quarter_ge_1.
    apply Nat.leb_gt in E. lia. }
  change (inject_Z 1) with 1 in H1. lra.
Qed.

Lemma codeStep_adds_one (a : Q) (t : string) : a + 1 <= codeStep a t.
Proof.
  unfold codeStep.
  destruct (String.length t <=? 8)%nat; [lra|].
  assert (H1 : inject_Z 1
               <= inject_Z (Z.max (Z.of_nat (length (non_empty
                               (Re.split_identifier true t)))) 1)).
  { rewrite <- Zle_Qle. lia. }
  change (inject_Z 1) with 1 in H1. lra.
Qed.

Lemma estimateTokenCount_nonneg (text : string) : (0 <= estimateTokenCount text)%Z.
Proof.
  unfold estimateTokenCount.
  destruct (JS.is_empty text); [lia|].
  apply Qceiling_ge_0.
  pose proof (inject_nat_nonneg (Re.count Re.is_special text)) as Hs.
  pose proof (fold_left_grows wordStep
                (fun a w => ltac:(pose proof (wordStep_adds_one a w); lra))
                (non_empty (Re.split_runs JS.is_space false text)) 0) as Hf.
  lra.
Qed.

Lemma estimateTokenCountForCode_nonneg (code : string) :
  (0 <= estimateTokenCountForCode code)%Z.
Proof.
  unfold estimateTokenCountForCode.
  destruct (JS.is_empty code); [lia|].
  apply Qceiling_ge_0.
  pose proof (inject_nat_nonneg (Re.count Re.is_operator code)) as Ho.
  pose proof (inject_nat_nonneg (Re.count_quoted false code)) as Hq.
  pose proof (fold_left_grows codeStep
                (fun a w => ltac:(pose proof (codeStep_adds_one a w); lra))
                (non_empty (Re.split_runs Re.is_code_delimiter false code)) 0) as Hf.
  lra.
Qed.

(** A word makes [estimateTokenCount] count at least one token. *)
Lemma estimateTokenCount_word (text : string) :
  (0 < Re.count notSpace text)%nat -> (1 <= estimateTokenCount text)%Z.
Proof.
  intros H. unfold estimateTokenCount.
  destruct text as [|c r]; [cbn in H; lia|]. cbn [JS.is_empty].
  apply Qceiling_ge_1.
  pose proof (inject_nat_nonneg (Re.count Re.is_special (String c r))) as Hs.
  pose proof (fold_left_adds_one wordStep wordStep_adds_one _ 0
                (words_exist JS.is_space false (String c r) H)) as Hf.
  lra.
Qed.

Lemma estimateTokenCountForCode_token (code : string) :
  (0 < Re.count notDelimiter code)%nat -> (1 <= estimateTokenCountForCode code)%Z.
Proof.
  intros H. unfold estimateTokenCountForCode.
  destruct code as [|c r]; [cbn in H; lia|]. cbn [JS.is_empty].
  apply Qceiling_ge_1.
  pose proof (inject_nat_nonneg (Re.count Re.is_operator (String c r))) as Ho.
  pose proof (inject_nat_nonneg (Re.count_quoted false (String c r))) as Hq.
  pose proof (fold_left_adds_one codeStep codeStep_adds_one _ 0
                (words_exist Re.is_code_delimiter false (String c r) H)) as Hf.
  lra.
Qed.

Lemma space_is_not_special (c : ascii) :
  JS.is_space c = true -> Re.is_special c = false.
Proof.
  destruct c as [[] [] [] [] [] [] [] []]; vm_compute; congruence.
Qed.

Lemma blank_has_no_special (text : string) :
  Re.count notSpace text = 0%nat -> Re.count Re.is_special text = 0%nat.
Proof.
  induction text as [|c r IH]; [reflexivity|].
  cbn [Re.count]. unfold notSpace at 1.
  destruct (JS.is_space c) eqn:E; cbn [negb]; [|discriminate].
  intros H. rewrite (space_is_not_special c E). apply IH. exact H.
Qed.

(** White space only: [estimateTokenCount] counts nothing. *)
Lemma estimateTokenCount_blank (text : string) :
  Re.count notSpace text = 0%nat -> estimateTokenCount text = 0%Z.
Proof.
  intros H. unfold estimateTokenCount.
  destruct (JS.is_empty text); [reflexivity|].
  rewrite (no_words JS.is_space false text H), (blank_has_no_special text H).
  reflexivity.
Qed.

End Estimators.

Section Mixed.

Lemma match_code_no_backtick (c : ascii) (r : string) :
  isBacktick c = false -> Re.match_code (String c r) = None.
Proof.
  unfold isBacktick, Re.match_code. intros H.
  assert (Hp : String.prefix "```" (String c r) = false).
  { cbn [String.prefix]. destruct (ascii_dec "`" c) as [<-|]; [discriminate|reflexivity]. }
  rewrite Hp.
  destruct c as [[] [] [] [] [] [] [] []]; try reflexivity; discriminate.
Qed.

(** Without a backtick the text is one piece, and it is not code. *)
Lemma split_code_no_backtick (s : string) :
  Re.count isBacktick s = 0%nat -> Re.split_code 0 s = [s].
Proof.
  induction s as [|c r IH]; [reflexivity|].
  cbn [Re.count]. destruct (isBacktick c) eqn:E; [discriminate|].
  intros H. cbn [Re.split_code]. rewrite (match_code_no_backtick c r E).
  rewrite (IH H). reflexivity.
Qed.

Lemma estimateTokenCountMixed_no_backtick (content : string) :
  Re.count isBacktick content = 0%nat ->
  estimateTokenCountMixed content = estimateTokenCount content.
Proof.
  intros H. unfold estimateTokenCountMixed.
  destruct content as [|c r]; [reflexivity|]. cbn [JS.is_empty].
  rewrite (split_code_no_backtick _ H). cbn [fold_left].
  cbn [Re.count] in H. destruct (isBacktick c) eqn:E; [discriminate|].
  assert (H1 : JS.startsWith (String c r) "```" = false).
  { unfold JS.startsWith. cbn [String.prefix].
    destruct (ascii_dec "`" c) as [<-|]; [discriminate|reflexivity]. }
  assert (H2 : JS.startsWith (String c r) "`" = false).
  { unfold JS.startsWith. cbn [String.prefix].
    destruct (ascii_dec "`" c) as [<-|]; [discriminate|reflexivity]. }
  rewrite H1, H2. reflexivity.
Qed.

Lemma estimateTokenCountMixed_nonneg (content : string) :
  (0 <= estimateTokenCountMixed content)%Z.
Proof.
  unfold estimateTokenCountMixed.
  destruct (JS.is_empty content); [lia|].
  assert (H : forall pieces acc, (0 <= acc)%Z ->
            (0 <= fold_left
                    (fun (totalTokens : Z) (part : string) =>
                       if JS.startsWith part "```" || JS.startsWith part "`"
                       then (totalTokens
                             + estimateTokenCountForCode
                                 (Re.strip_fence_close (Re.strip_fence_open part)))%Z
                       else (totalTokens + estimateTokenCount part)%Z)
                    pieces acc)%Z).
  { induction pieces as [|p ps IH]; intros acc Hacc; cbn [fold_left]; [exact Hacc|].
    apply IH.
    pose proof (estimateTokenCount_nonneg p).
    pose proof (estimateTokenCountForCode_nonneg
                  (Re.strip_fence_close (Re.strip_fence_open p))).
    destruct (JS.startsWith p "```" || JS.startsWith p "`"); lia. }
  apply H. lia.
Qed.

End Mixed.

(** C4, as stated, is false: a string made of one space is not empty, and
    three of the four estimators return 0 on it. *)
Lemma blank_string_counts_zero :
  ~ (forall s : string, s <> "" ->
       (1 <= estimateTokenCount s)%Z /\ (1 <= estimateTokenCountSimple s)%Z
       /\ (1 <= estimateTokenCountForCode s)%Z /\ (1 <= estimateTokenCountMixed s)%Z).
Proof.
  intros H. destruct (H " ") as [H1 _]; [discriminate|].
  vm_compute in H1. apply H1. reflexivity.
Qed.

Example blank_string_estimates :
  estimateTokenCount " " = 0%Z /\ estimateTokenCountSimple " " = 1%Z
  /\ estimateTokenCountForCode " " = 0%Z /\ estimateTokenCountMixed " " = 0%Z
  /\ estimateTokenCountForCode "();" = 0%Z
  /\ estimateTokenCountMixed "```js```" = 0%Z.
Proof. vm_compute. repeat split. Qed.

(** C4 (amended): each estimator is a function to the non-negative integers
    that gives 0 on the empty string; [estimateTokenCountSimple] gives at
    least 1 on every non-empty string; [estimateTokenCount] gives at least 1
    on a string with a character that is not white space and 0 on a string of
    white space; [estimateTokenCountForCode] gives at least 1 on a string
    with a character that is neither white space nor one of its delimiters;
    [estimateTokenCountMixed] agrees with [estimateTokenCount] on a string
    without a backtick. *)
Theorem estimators_lower_bounds (s : string) :
  ((0 <= estimateTokenCount s)%Z /\ (0 <= estimateTokenCountSimple s)%Z
   /\ (0 <= estimateTokenCountForCode s)%Z /\ (0 <= estimateTokenCountMixed s)%Z)
  /\ (estimateTokenCount "" = 0%Z /\ estimateTokenCountSimple "" = 0%Z
      /\ estimateTokenCountForCode "" = 0%Z /\ estimateTokenCountMixed "" = 0%Z)
  /\ (s <> "" -> (1 <= estimateTokenCountSimple s)%Z)
  /\ ((0 < Re.count notSpace s)%nat -> (1 <= estimateTokenCount s)%Z)
  /\ (Re.count notSpace s = 0%nat -> estimateTokenCount s = 0%Z)
  /\ ((0 < Re.count notDelimiter s)%nat -> (1 <= estimateTokenCountForCode s)%Z)
  /\ (Re.count isBacktick s = 0%nat ->
      estimateTokenCountMixed s = estimateTokenCount s).
Proof.
  repeat split; try reflexivity.
  - apply estimateTokenCount_nonneg.
  - unfold estimateTokenCountSimple. destruct (JS.is_empty s); [lia|].
    apply ceil_quarter_ge_0.
  - apply estimateTokenCountForCode_nonneg.
  - apply estimateTokenCountMixed_nonneg.
  - intros H. unfold estimateTokenCountSimple.
    destruct s as [|c r]; [contradiction|]. cbn [JS.is_empty].
    apply ceil_quarter_ge_1. cbn. lia.
  - apply estimateTokenCount_word.
  - apply estimateTokenCount_blank.
  - apply estimateTokenCountForCode_token.
  - apply estimateTokenCountMixed_no_backtick.
Qed.

Lemma estimators_lower_bounds_witness :
  (1 <= estimateTokenCountSimple "Hello, world")%Z
  /\ (1 <= estimateTokenCount "Hello, world")%Z
  /\ estimateTokenCount "  " = 0%Z
  /\ (1 <= estimateTokenCountForCode "Hello, world")%Z
  /\ estimateTokenCountMixed "Hello, world" = estimateTokenCount "Hello, world".
Proof.
  destruct (estimators_lower_bounds "Hello, world") as [_ [_ [H1 [H2 [_ [H4 H5]]]]]].
  destruct (estimators_lower_bounds "  ") as [_ [_ [_ [_ [H3 _]]]]].
  split; [apply H1; discriminate|].
  split; [apply H2; vm_compute; lia|].
  split; [apply H3; reflexivity|].
  split; [apply H4; vm_compute; lia|].
  apply H5; reflexivity.
Defined.

(* ================================================================== *)
(** * Part III: further properties of the converter, the decoder, the
      estimators and the facade *)
(* ================================================================== *)

(** ** Messages built from turns *)

Section TurnMessages.





Lemma role_of_turn_message (c : Content) (m : OllamaMessage) :
  convertContentToMessage c = Some m -> msg_role m <> system.
Proof.
  unfold convertContentToMessage.
  destruct (parts c) as [[|p ps]|]; try discriminate.
  intros H. injection H as <-. cbn [msg_role].
  rewrite fold_convertPart_role, ?convertPart_role.
  destruct (existsb isFunctionResponsePart ps); [discriminate|].
  destruct (isFunctionResponsePart p); [discriminate|].
  cbn [b_role].
  destruct (role c) as [r|]; [|discriminate].
  destruct (String.eqb r "model"); [discriminate|].
  destruct (String.eqb r "function"); discriminate.
Qed.

Lemma join_not_empty (sep x : string) (l : list string) :
  x <> "" -> JS.join sep (x :: l) <> "".
Proof.
  intros Hx. unfold JS.join. destruct x as [|c x]; [contradiction|].
  destruct l; cbn; discriminate.
Qed.

Lemma texts_of_instruction (ps : list Part) :
  filter (fun t => negb (JS.is_empty t))
    (map (fun part => if JS.truthy (text part)
                      then match text part with Some t => t | None => "" end
                      else "") ps) = []
  <-> existsb (fun p => JS.truthy (text p)) ps = false.
Proof.
  induction ps as [|p ps IH]; cbn [map filter existsb]; [tauto|].
  unfold JS.truthy at 1 3.
  destruct (text p) as [[|c t]|]; cbn; try exact IH.
  split; discriminate.
Qed.

Lemma filter_all_nonempty (l : list string) :
  Forall (fun t => t <> "") (filter (fun t => negb (JS.is_empty t)) l).
Proof.
  induction l as [|x l IH]; cbn [filter]; [constructor|].
  destruct x; cbn; [exact IH|]. constructor; [discriminate|exact IH].
Qed.




End TurnMessages.

(** X1: the message list starts with a system message exactly when the
    system instruction has a part with non-empty text; its content is then
    not empty, and no other message of the request has the role [system]. *)
Theorem system_message_comes_first (params : GenerateContentParameters)
  (stream : bool) :
  let ms := messages (convertToOllamaRequest params stream) in
  if match systemInstruction params with
     | Some si => match parts si with
                  | Some ps => existsb (fun p => JS.truthy (text p)) ps
                  | None => false
                  end
     | None => false
     end
  then exists txt rest,
      ms = {| msg_role := system; content := txt; images := None;
              tool_calls := None |} :: rest
      /\ txt <> ""
      /\ Forall (fun m => msg_role m <> system) rest
  else Forall (fun m => msg_role m <> system) ms.
Proof.
  assert (Hturns : Forall (fun m => msg_role m <> system)
                     (flat_map (fun c => match convertContentToMessage c with
                                         | Some m => [m]
                                         | None => []
                                         end) (contents params))).
  { induction (contents params) as [|c cs IH]; cbn [flat_map]; [constructor|].
    apply Forall_app. split; [|exact IH].
    destruct (convertContentToMessage c) as [m|] eqn:E; constructor;
      [eapply role_of_turn_message; eassumption|constructor]. }
  cbv zeta. unfold convertToOllamaRequest; cbn [messages].
  rewrite fold_messages. unfold systemMessages.
  destruct (systemInstruction params) as [si|]; [|exact Hturns].
  unfold extractTextFromContent.
  destruct (parts si) as [ps|]; [|exact Hturns].
  pose proof (texts_of_instruction ps) as Ht.
  pose proof (filter_all_nonempty
                (map (fun part => if JS.truthy (text part)
                                  then match text part with Some t => t | None => "" end
                                  else "") ps)) as Hne.
  destruct (existsb (fun p => JS.truthy (text p)) ps).
  - destruct (filter _ _) as [|x l] eqn:E.
    + destruct Ht as [Ht _]. specialize (Ht eq_refl). discriminate.
    + inversion Hne as [|? ? Hx _]; subst.
      pose proof (join_not_empty (String JS.newline "") x l Hx) as Hj.
      destruct (JS.join (String JS.newline "") (x :: l)) as [|c t] eqn:Ej;
        [contradiction|].
      cbn [JS.is_empty negb app].
      exists (String c t), (flat_map (fun c0 => match convertContentToMessage c0 with
                                                | Some m => [m]
                                                | None => []
                                                end) (contents params)).
      repeat split; [discriminate|exact Hturns].
  - destruct Ht as [_ Ht]. rewrite (Ht eq_refl). exact Hturns.
Qed.


(** X3: a turn of role [model] yields a message of role [assistant] and a
    turn of role [function] one of role [tool]; a function response part
    makes the role [tool] in both cases. *)
Theorem model_and_function_roles (ps : list Part) :
  match convertContentToMessage {| role := Some "model"; parts := Some ps |} with
  | Some m => msg_role m = if existsb isFunctionResponsePart ps then tool else assistant
  | None => ps = []
  end
  /\ match convertContentToMessage {| role := Some "function"; parts := Some ps |} with
     | Some m => msg_role m = tool
     | None => ps = []
     end.
Proof.
  unfold convertContentToMessage; cbn [parts role].
  destruct ps as [|p ps]; [split; reflexivity|].
  cbn [msg_role]. rewrite !fold_convertPart_role. cbn [b_role String.eqb].
  split; [reflexivity|].
  now destruct (existsb isFunctionResponsePart (p :: ps)).
Qed.


(** ** The two directions together *)

Section RoundTrip.


End RoundTrip.



(** X6: on a chunk with [done], the stream conversion gives the response
    that the full conversion gives for an answer with the same model, text,
    reason and counters; on every chunk the two give the same parts. *)
Theorem terminal_chunk_is_a_full_response (chunk : OllamaStreamChunk)
  (isFirst : bool) :
  candidateParts (convertStreamChunkToGeminiResponse chunk isFirst)
  = candidateParts (convertToGeminiResponse (responseOfChunk chunk))
  /\ (done chunk = true ->
      convertStreamChunkToGeminiResponse chunk isFirst
      = convertToGeminiResponse (responseOfChunk chunk)).
Proof.
  assert (Hp : (match chunk_message chunk with
                | Some m => if negb (JS.is_empty (cm_content m))
                            then [textPart (cm_content m)] else []
                | None => []
                end)
               = ((if negb (JS.is_empty (chunkText chunk))
                   then [textPart (chunkText chunk)] else []) ++ [])%list).
  { rewrite app_nil_r. unfold chunkText. now destruct (chunk_message chunk). }
  split.
  - unfold candidateParts, firstCandidate, convertStreamChunkToGeminiResponse,
      convertToGeminiResponse, responseOfChunk;
      cbn [candidates cand_content parts resp_message content tool_calls map].
    exact Hp.
  - intros Hd.
    unfold convertStreamChunkToGeminiResponse, convertToGeminiResponse, responseOfChunk;
      cbn [resp_message content tool_calls map resp_done resp_done_reason
           resp_prompt_eval_count resp_eval_count resp_model].
    rewrite Hd, Hp.
    assert (Hr : (match done_reason chunk with
                  | Some r => if String.eqb r "length" then MAX_TOKENS else STOP
                  | None => STOP
                  end)
                 = (if match done_reason chunk with
                       | Some x => String.eqb x "stop"
                       | None => false
                       end then STOP
                    else if match done_reason chunk with
                            | Some x => String.eqb x "length"
                            | None => false
                            end then MAX_TOKENS
                    else STOP)).
    { destruct (done_reason chunk) as [r|]; [|reflexivity].
      destruct (String.eqb_spec r "stop") as [->|_]; [reflexivity|].
      now destruct (String.eqb r "length"). }
    rewrite Hr. reflexivity.
Qed.

Lemma terminal_chunk_is_a_full_response_witness :
  convertStreamChunkToGeminiResponse (snd doneRecord) true
  = convertToGeminiResponse (responseOfChunk (snd doneRecord)).
Proof.
  apply (proj2 (terminal_chunk_is_a_full_response (snd doneRecord) true)).
  reflexivity.
Defined.

(** ** What the generator yields *)

Section Fragments.

Variable decoder : TextDecoder.
Variable JSON_parse : string -> option OllamaStreamChunk.

Lemma fragmentText_of_chunk (c : OllamaStreamChunk) (f : bool) :
  fragmentText (convertStreamChunkToGeminiResponse c f) = chunkText c.
Proof.
  unfold fragmentText, candidateParts, firstCandidate,
    convertStreamChunkToGeminiResponse, chunkText;
    cbn [candidates cand_content parts].
  destruct (chunk_message c) as [m|]; [|reflexivity].
  destruct (cm_content m) as [|x t]; [reflexivity|].
  cbn. now rewrite append_empty_r.
Qed.

Lemma no_parts_no_text (c : OllamaStreamChunk) (f : bool) :
  hasParts (convertStreamChunkToGeminiResponse c f) = false -> chunkText c = "".
Proof.
  unfold hasParts, convertStreamChunkToGeminiResponse, chunkText;
    cbn [candidates cand_content parts].
  destruct (chunk_message c) as [m|]; [|reflexivity].
  destruct (cm_content m); [reflexivity|discriminate].
Qed.

(** Each event carries, as yielded text, the text of its record. *)
Lemma processLines_keep_text (f : bool) (lines : list string) :
  fold_right append ""
    (map fragmentText (yields (fst (processLines JSON_parse f lines))))
  = fold_right append ""
      (map chunkText (decoded (fst (processLines JSON_parse f lines)))).
Proof.
  revert f.
  induction lines as [|x l IH]; intros f; [reflexivity|].
  cbn [processLines].
  destruct (JS.is_empty (JS.trim x)).
  - specialize (IH f). destruct (processLines JSON_parse f l). exact IH.
  - unfold parseLine. destruct (JSON_parse x) as [c|].
    + specialize (IH false).
      destruct (hasParts (convertStreamChunkToGeminiResponse c f) || done c) eqn:E;
        destruct (processLines JSON_parse false l) as [e2 f2];
        cbn [fst app yields decoded map fold_right] in *.
      * now rewrite fragmentText_of_chunk, IH.
      * apply orb_false_iff in E as [E _].
        now rewrite (no_parts_no_text c f E), IH.
    + specialize (IH f). destruct (processLines JSON_parse f l).
      cbn [fst app yields decoded] in *. exact IH.
Qed.

Lemma fold_append_app (a b : list string) :
  fold_right append "" (a ++ b)
  = fold_right append "" a ++ fold_right append "" b.
Proof.
  induction a as [|x a IH]; cbn [app fold_right]; [reflexivity|].
  now rewrite IH, append_assoc.
Qed.

Lemma loop_is_filter_of_decoded (lines : list string) :
  flat_map (yieldedByLoop JSON_parse) lines
  = map (fun c => convertStreamChunkToGeminiResponse c false)
      (filter forwarded (flat_map (decodedOf JSON_parse) lines)).
Proof.
  induction lines as [|x l IH]; [reflexivity|].
  cbn [flat_map]. rewrite filter_app, map_app, <- IH. f_equal.
  unfold yieldedByLoop, decodedOf.
  destruct (JS.is_empty (JS.trim x)); [reflexivity|].
  destruct (JSON_parse x) as [c|]; [|reflexivity].
  cbn [filter]. now destruct (forwarded c).
Qed.

(** X7: the emptiness filter drops no text: the texts of the yielded
    fragments, concatenated, are the contents of all the decoded records,
    concatenated, for every body and every way of cutting it into chunks. *)
Theorem filter_keeps_the_text (chunks : list (list byte)) :
  fold_right append ""
    (map fragmentText (yields (parseStreamingResponse decoder JSON_parse chunks)))
  = fold_right append ""
      (map chunkText (decoded (parseStreamingResponse decoder JSON_parse chunks))).
Proof.
  unfold parseStreamingResponse.
  rewrite (readAll_initial decoder JSON_parse chunks). cbv zeta. cbn [buffer].
  rewrite yields_app, decoded_app, !map_app, !fold_append_app.
  rewrite processLines_keep_text. f_equal.
  unfold flushBuffer.
  destruct (negb (JS.is_empty (JS.trim _))); [|reflexivity].
  destruct (JSON_parse _) as [c|]; [|reflexivity].
  cbn [yields decoded map fold_right]. now rewrite fragmentText_of_chunk.
Qed.

(** X8: when the decoded body ends with a line feed, the yielded fragments
    are the conversions of the decoded records that carry content or
    [done], in the order of the records, and each of them has a part or the
    usage metadata of a terminal chunk. *)
Theorem terminated_body_is_filtered (chunks : list (list byte)) :
  last (JS.split JS.newline (snd (decode decoder (dinit decoder) (concat chunks))))
    EmptyString = EmptyString ->
  yields (parseStreamingResponse decoder JSON_parse chunks)
  = map (fun c => convertStreamChunkToGeminiResponse c false)
      (filter forwarded (decoded (parseStreamingResponse decoder JSON_parse chunks)))
  /\ Forall (fun r => hasParts r = true \/ usageMetadata r <> None)
       (yields (parseStreamingResponse decoder JSON_parse chunks)).
Proof.
  intros Hlast.
  pose proof (parseStreamingResponse_yields decoder JSON_parse chunks) as Hy.
  destruct (parseStreamingResponse_lines decoder JSON_parse chunks) as [Hd _].
  cbv zeta in Hy, Hd.
  set (lines := JS.split JS.newline
                  (snd (decode decoder (dinit decoder) (concat chunks)))) in *.
  assert (Hl : lines = (removelast lines ++ [""])%list).
  { pose proof (app_removelast_last ""
                  (split_not_nil JS.newline
                     (snd (decode decoder (dinit decoder) (concat chunks))))) as H.
    fold lines in H. rewrite Hlast in H. exact H. }
  rewrite Hlast in Hy. rewrite Hl in Hd. rewrite flat_map_app in Hd.
  cbn in Hy, Hd. rewrite !app_nil_r in *.
  assert (E : yields (parseStreamingResponse decoder JSON_parse chunks)
              = map (fun c => convertStreamChunkToGeminiResponse c false)
                  (filter forwarded
                     (decoded (parseStreamingResponse decoder JSON_parse chunks)))).
  { rewrite Hy, Hd. apply loop_is_filter_of_decoded. }
  split; [exact E|].
  rewrite E. apply Forall_map, Forall_forall. intros c Hc.
  apply filter_In in Hc as [_ Hc]. unfold forwarded in Hc.
  apply orb_true_iff in Hc as [Hc|Hc]; [left; exact Hc|right].
  unfold convertStreamChunkToGeminiResponse; cbn [usageMetadata].
  rewrite Hc. discriminate.
Qed.

End Fragments.

Lemma terminated_body_is_filtered_witness :
  yields (parseStreamingResponse asciiDecoder parseChunk brokenStream)
  = map (fun c => convertStreamChunkToGeminiResponse c false)
      (filter forwarded
         (decoded (parseStreamingResponse asciiDecoder parseChunk brokenStream)))
  /\ Forall (fun r => hasParts r = true \/ usageMetadata r <> None)
       (yields (parseStreamingResponse asciiDecoder parseChunk brokenStream)).
Proof.
  apply (terminated_body_is_filtered asciiDecoder parseChunk brokenStream).
  reflexivity.
Defined.

(** ** The facade: requests and failures *)

Section Calls.

Variable fetch : Request -> Thrown + Response.
Variable decoder : TextDecoder.
Variable JSON_parse : string -> option OllamaStreamChunk.

(** X9: each of the two chat operations issues exactly one request,
    whatever the transport does with it: a POST to the chat endpoint of the
    adapter; the two requests for the same parameters differ in the [stream]
    flag only. *)
Theorem chat_calls_issue_one_request (this : OllamaContentGenerator)
  (request : GenerateContentParameters) (id : string) (log : list Request) :
  let plain := convertToOllamaRequest request false in
  let streamed := convertToOllamaRequest request true in
  fst (generateContent fetch this request id log)
  = (log ++ [ {| url := baseUrl this ++ "/api/chat"; method := "POST";
                 contentType := "application/json"; body := ChatBody plain |} ])%list
  /\ fst (generateContentStream fetch decoder JSON_parse this request id log)
     = (log ++ [ {| url := baseUrl this ++ "/api/chat"; method := "POST";
                    contentType := "application/json";
                    body := ChatBody streamed |} ])%list
  /\ stream plain = Some false /\ stream streamed = Some true
  /\ req_model streamed = req_model plain
  /\ messages streamed = messages plain
  /\ options streamed = options plain
  /\ req_tools streamed = req_tools plain.
Proof.
  cbv zeta. split; [|split; [|repeat split]].
  - unfold generateContent, try_catch, bind, fetch_, await, chatRequest.
    destruct (fetch _) as [t|r]; cbn [fst].
    + destruct t as [e|v]; [|reflexivity].
      destruct (String.eqb (name e) "AbortError"); [reflexivity|].
      now destruct (JS.includes (message e) "ECONNREFUSED").
    + destruct (ok r); cbn [negb].
      * destruct (json_chat r) as [t|o]; [|reflexivity].
        destruct t as [e|v]; [|reflexivity].
        destruct (String.eqb (name e) "AbortError"); [reflexivity|].
        now destruct (JS.includes (message e) "ECONNREFUSED").
      * cbn. match goal with
             | |- context [JS.includes ?a ?b] => now destruct (JS.includes a b)
             end.
  - unfold generateContentStream, bind, fetch_, chatRequest.
    destruct (fetch _) as [t|r]; [reflexivity|].
    destruct (ok r); cbn [negb]; [|reflexivity].
    now destruct (resp_body r).
Qed.

(** X10: when the server answers with a status that is not ok, both chat
    operations throw an error whose message carries the status and the body
    text; [generateContent] replaces it by the connection error when that
    message mentions ECONNREFUSED. *)
Theorem http_error_carries_status_and_body (this : OllamaContentGenerator)
  (request : GenerateContentParameters) (id : string) (log : list Request)
  (r : Response) :
  ok r = false ->
  let msg := "Ollama API error (" ++ JS.string_of_Z (status r) ++ "): "
             ++ resp_text r in
  (fetch (chatRequest this (convertToOllamaRequest request true)) = inr r ->
   snd (generateContentStream fetch decoder JSON_parse this request id log)
   = inl (new_Error msg))
  /\ (fetch (chatRequest this (convertToOllamaRequest request false)) = inr r ->
      snd (generateContent fetch this request id log)
      = inl (new_Error (if JS.includes msg "ECONNREFUSED"
                        then connectionMessage this else msg))).
Proof.
  intros Hok msg. split; intros Hf.
  - unfold generateContentStream, bind, fetch_. rewrite Hf, Hok. reflexivity.
  - unfold generateContent, try_catch, bind, fetch_, ret, throw, new_Error.
    rewrite Hf, Hok. cbn [negb name message snd].
    change (String.eqb "Error" "AbortError") with false. cbv iota.
    fold msg. now destruct (JS.includes msg "ECONNREFUSED").
Qed.

(** X11: [generateContent] hands on unchanged what the transport throws,
    unless it is an [Error] that mentions ECONNREFUSED and is not an abort:
    an [AbortError] is never reclassified. *)
Theorem other_failures_pass_unchanged (this : OllamaContentGenerator)
  (request : GenerateContentParameters) (id : string) (log : list Request)
  (t : Thrown) :
  fetch (chatRequest this (convertToOllamaRequest request false)) = inl t ->
  match t with
  | ErrorObject e =>
      name e = "AbortError" \/ JS.includes (message e) "ECONNREFUSED" = false
  | OtherValue _ => True
  end ->
  snd (generateContent fetch this request id log) = inl t.
Proof.
  intros Hf Ht. unfold generateContent, try_catch, bind, fetch_. rewrite Hf.
  destruct t as [e|v]; [|reflexivity].
  destruct Ht as [Hn|Hm].
  - rewrite Hn. reflexivity.
  - rewrite Hm. now destruct (String.eqb (name e) "AbortError").
Qed.

(** X12: when the transport of [generateContent] throws an [Error] that
    mentions ECONNREFUSED and is not an abort, the caller gets an error whose
    message contains the base URL of the adapter and the hint to start the
    server. *)
Theorem generate_names_the_endpoint (this : OllamaContentGenerator)
  (request : GenerateContentParameters) (id : string) (log : list Request)
  (e : JSError) :
  fetch (chatRequest this (convertToOllamaRequest request false))
    = inl (ErrorObject e) ->
  JS.includes (message e) "ECONNREFUSED" = true ->
  name e <> "AbortError" ->
  exists msg,
    snd (generateContent fetch this request id log) = inl (new_Error msg)
    /\ JS.includes msg (getBaseUrl this) = true
    /\ JS.includes msg "ollama serve" = true.
Proof.
  intros Hf Hm Hn. exists (connectionMessage this).
  split; [|apply connectionMessage_contents].
  now apply generateContent_connection_refused with (e := e).
Qed.

(** X13: [embedContent] does the same for every [Error] that mentions
    ECONNREFUSED, an abort included, once the text passed the validation. *)
Theorem embed_names_the_endpoint (this : OllamaContentGenerator)
  (request : EmbedContentParameters) (log : list Request) (e : JSError) :
  JS.trim (gatherText "" (contentsArray (embed_contents request))) <> "" ->
  fetch (embeddingsRequest this request) = inl (ErrorObject e) ->
  JS.includes (message e) "ECONNREFUSED" = true ->
  exists msg,
    snd (embedContent fetch this request log) = inl (new_Error msg)
    /\ JS.includes msg (getBaseUrl this) = true
    /\ JS.includes msg "ollama serve" = true.
Proof.
  intros Ht Hf Hm. exists (connectionMessage this).
  split; [|apply connectionMessage_contents].
  now apply embedContent_connection_refused with (e := e).
Qed.

End Calls.

Lemma http_error_carries_status_and_body_witness :
  snd (generateContentStream (constantFetch (errorResponse 404 "model not found"))
         asciiDecoder parseChunk localhost (turnsOnly [userText "Hi"]) "p" [])
  = inl (new_Error "Ollama API error (404): model not found")
  /\ snd (generateContent (constantFetch (errorResponse 404 "model not found"))
            localhost (turnsOnly [userText "Hi"]) "p" [])
     = inl (new_Error "Ollama API error (404): model not found").
Proof.
  destruct (http_error_carries_status_and_body
              (constantFetch (errorResponse 404 "model not found"))
              asciiDecoder parseChunk localhost (turnsOnly [userText "Hi"]) "p" []
              (errorResponse 404 "model not found") eq_refl) as [H1 H2].
  split; [apply H1; reflexivity|apply H2; reflexivity].
Defined.

Lemma other_failures_pass_unchanged_witness :
  snd (generateContent
         (failingFetch (ErrorObject {| name := "AbortError";
                                       message := "aborted after ECONNREFUSED" |}))
         localhost (turnsOnly [userText "Hi"]) "p" [])
  = inl (ErrorObject {| name := "AbortError";
                        message := "aborted after ECONNREFUSED" |}).
Proof.
  apply (other_failures_pass_unchanged
           (failingFetch (ErrorObject {| name := "AbortError";
                                         message := "aborted after ECONNREFUSED" |}))).
  - reflexivity.
  - left. reflexivity.
Defined.

Lemma generate_names_the_endpoint_witness :
  exists msg,
    snd (generateContent refusingFetch localhost (turnsOnly [userText "Hi"]) "p" [])
    = inl (new_Error msg)
    /\ JS.includes msg (getBaseUrl localhost) = true
    /\ JS.includes msg "ollama serve" = true.
Proof.
  apply (generate_names_the_endpoint refusingFetch localhost
           (turnsOnly [userText "Hi"]) "p" []
           {| name := "Error"; message := "connect ECONNREFUSED 127.0.0.1:11434" |}).
  - reflexivity.
  - reflexivity.
  - discriminate.
Defined.

Lemma embed_names_the_endpoint_witness :
  exists msg,
    snd (embedContent refusingFetch localhost helloEmbed []) = inl (new_Error msg)
    /\ JS.includes msg (getBaseUrl localhost) = true
    /\ JS.includes msg "ollama serve" = true.
Proof.
  apply (embed_names_the_endpoint refusingFetch localhost helloEmbed []
           {| name := "Error"; message := "connect ECONNREFUSED 127.0.0.1:11434" |}).
  - vm_compute. discriminate.
  - reflexivity.
  - reflexivity.
Defined.

Section BaseUrl.

Lemma strip_added_slash (s : string) : JS.stripTrailingSlash (s ++ "/") = s.
Proof.
  induction s as [|c s IH]; [reflexivity|].
  cbn [append JS.stripTrailingSlash]. rewrite IH.
  destruct (s ++ "/") eqn:E; [destruct s; discriminate|].
  cbn [JS.is_empty]. now rewrite andb_false_r.
Qed.

Lemma strip_at_most_a_slash (s : string) :
  JS.stripTrailingSlash s = s \/ s = JS.stripTrailingSlash s ++ "/".
Proof.
  induction s as [|c s IH]; [left; reflexivity|].
  cbn [JS.stripTrailingSlash].
  destruct (Ascii.eqb c "/" && JS.is_empty s) eqn:E.
  - apply andb_true_iff in E as [Ec Es].
    apply Ascii.eqb_eq in Ec. apply is_empty_true in Es. subst.
    right. reflexivity.
  - destruct IH as [IH|IH].
    + left. now rewrite IH.
    + right. cbn [append]. now rewrite <- IH.
Qed.

End BaseUrl.

(** X14: a base URL given with a trailing slash gives the adapter of the
    URL without it, so that the chat endpoint has one slash before [api];
    the constructor removes nothing else. *)
Theorem trailing_slash_is_dropped (s : string) (r : OllamaRequest) :
  getBaseUrl (constructor (s ++ "/")) = s
  /\ url (chatRequest (constructor (s ++ "/")) r) = s ++ "/api/chat"
  /\ (getBaseUrl (constructor s) = s \/ s = getBaseUrl (constructor s) ++ "/").
Proof.
  unfold getBaseUrl, constructor, chatRequest; cbn [baseUrl url].
  rewrite strip_added_slash. repeat split. apply strip_at_most_a_slash.
Qed.

(** ** Counting tokens *)

Section Counting.

Local Open Scope Q_scope.

Lemma fold_left_counts (step : Q -> string -> Q) :
  (forall a w, a + 1 <= step a w) ->
  forall ws a, a + inject_Z (Z.of_nat (length ws)) <= fold_left step ws a.
Proof.
  intros Hs ws. induction ws as [|w ws IH]; intros a.
  - cbn [fold_left length]. change (inject_Z (Z.of_nat 0)) with 0. lra.
  - cbn [fold_left length]. specialize (IH (step a w)). specialize (Hs a w).
    rewrite Nat2Z.inj_succ. unfold Z.succ. rewrite inject_Z_plus.
    change (inject_Z 1) with 1. lra.
Qed.

Lemma Qceiling_above (k : Z) (q : Q) : inject_Z k <= q -> (k <= Qceiling q)%Z.
Proof.
  intros H. rewrite <- (Qceiling_Z k). now apply Qceiling_resp_le.
Qed.

Lemma ceil_quarter_bounds (n : nat) :
  (Z.of_nat n <= 4 * ceil_quarter n < Z.of_nat n + 4)%Z.
Proof.
  unfold ceil_quarter.
  pose proof (Qle_ceiling (Z.of_nat n # 4)) as H1.
  pose proof (Qceiling_lt (Z.of_nat n # 4)) as H2.
  set (c := Qceiling (Z.of_nat n # 4)) in *.
  unfold Qle in H1. unfold Qlt in H2. cbn in H1, H2. lia.
Qed.

End Counting.

(** X15: [countTokens] issues no request and cannot fail; its total is not
    negative, and it is 0 exactly when the text parts of the request (system
    instruction included) hold no character other than white space. *)
Theorem countTokens_is_local (request : CountTokensParameters)
  (log : list Request) :
  exists n : Z,
    countTokens request log = (log, inr {| totalTokens := n |})
    /\ n = estimateTokenCount (countedText request)
    /\ (0 <= n)%Z
    /\ (n = 0%Z <-> Re.count notSpace (countedText request) = 0%nat).
Proof.
  exists (estimateTokenCount (countedText request)).
  split; [reflexivity|]. split; [reflexivity|].
  split; [apply estimateTokenCount_nonneg|].
  split.
  - intros H0.
    destruct (Re.count notSpace (countedText request)) as [|k] eqn:E;
      [reflexivity|].
    pose proof (estimateTokenCount_word (countedText request)) as Hw.
    rewrite E in Hw. specialize (Hw ltac:(lia)). lia.
  - apply estimateTokenCount_blank.
Qed.

(** X16: the character-based estimate is the length divided by four,
    rounded up: four times the estimate is at least the length and exceeds
    it by less than four; a longer text never gets a smaller estimate. *)
Theorem simple_estimate_is_a_quarter (s t : string) :
  (Z.of_nat (String.length s) <= 4 * estimateTokenCountSimple s
   < Z.of_nat (String.length s) + 4)%Z
  /\ (estimateTokenCountSimple s <= estimateTokenCountSimple (s ++ t))%Z.
Proof.
  assert (E : forall u, estimateTokenCountSimple u = ceil_quarter (String.length u)).
  { intros [|c u]; reflexivity. }
  rewrite !E. split; [apply ceil_quarter_bounds|].
  pose proof (ceil_quarter_bounds (String.length s)) as H1.
  pose proof (ceil_quarter_bounds (String.length (s ++ t))) as H2.
  assert (Hl : (String.length s <= String.length (s ++ t))%nat).
  { clear. induction s as [|c s IH]; cbn [append String.length]; lia. }
  lia.
Qed.

(** X17: the word-based estimate is at least the number of words, and the
    code-aware estimate at least the number of tokens plus the number of
    operator characters plus two for every string literal. *)
Theorem estimates_count_every_word (s : string) :
  (Z.of_nat (length (non_empty (Re.split_runs JS.is_space false s)))
   <= estimateTokenCount s)%Z
  /\ (Z.of_nat (length (non_empty (Re.split_runs Re.is_code_delimiter false s)))
      + Z.of_nat (Re.count Re.is_operator s)
      + 2 * Z.of_nat (Re.count_quoted false s)
      <= estimateTokenCountForCode s)%Z.
Proof.
  destruct s as [|c s]; [split; vm_compute; discriminate|].
  unfold estimateTokenCount, estimateTokenCountForCode. cbn [JS.is_empty].
  split; apply Qceiling_above.
  - pose proof (fold_left_counts wordStep wordStep_adds_one
                  (non_empty (Re.split_runs JS.is_space false (String c s))) 0%Q) as H.
    pose proof (inject_nat_nonneg (Re.count Re.is_special (String c s))) as Hs.
    lra.
  - rewrite !inject_Z_plus, inject_Z_mult.
    pose proof (fold_left_counts codeStep codeStep_adds_one
                  (non_empty (Re.split_runs Re.is_code_delimiter false (String c s)))
                  0%Q) as H.
    change (inject_Z 2) with 2%Q. lra.
Qed.

Section WhiteSpace.

Lemma split_runs_in_run (cls : ascii -> bool) (s : string) :
  non_empty (Re.split_runs cls true s) = non_empty (Re.split_runs cls false s).
Proof.
  destruct s as [|c s]; [reflexivity|].
  cbn [Re.split_runs]. destruct (cls c); reflexivity.
Qed.

End WhiteSpace.

(** X18: white space in front of a text does not change the word-based
    estimate. *)
Theorem leading_space_is_not_counted (w : ascii) (s : string) :
  JS.is_space w = true ->
  estimateTokenCount (String w s) = estimateTokenCount s.
Proof.
  intros Hw. unfold estimateTokenCount. cbn [JS.is_empty Re.split_runs Re.count].
  rewrite Hw, (space_is_not_special w Hw). cbn [Nat.add].
  change (non_empty (EmptyString :: Re.split_runs JS.is_space true s))
    with (non_empty (Re.split_runs JS.is_space true s)).
  rewrite split_runs_in_run.
  destruct s as [|c s]; reflexivity.
Qed.

Lemma leading_space_is_not_counted_witness :
  estimateTokenCount " Hello, world" = estimateTokenCount "Hello, world".
Proof. apply (leading_space_is_not_counted " " "Hello, world"). reflexivity. Defined.

Section Fences.

Lemma word_is_not_backtick (c : ascii) : Re.is_word c = true -> isBacktick c = false.
Proof. destruct c as [[] [] [] [] [] [] [] []]; vm_compute; congruence. Qed.

Lemma count_app (cls : ascii -> bool) (a b : string) :
  Re.count cls (a ++ b) = (Re.count cls a + Re.count cls b)%nat.
Proof.
  induction a as [|c a IH]; cbn [append Re.count]; [reflexivity|].
  rewrite IH. lia.
Qed.

Lemma words_have_no_backtick (tag : string) :
  Re.count (fun c => negb (Re.is_word c)) tag = 0%nat ->
  Re.count isBacktick tag = 0%nat.
Proof.
  induction tag as [|c tag IH]; [reflexivity|]. cbn [Re.count].
  destruct (Re.is_word c) eqn:E; cbn [negb]; [|discriminate].
  intros H. rewrite (word_is_not_backtick c E). apply IH. exact H.
Qed.

Lemma until_fence_end (x : string) :
  Re.count isBacktick x = 0%nat -> Re.until_fence (x ++ "```") = Some (x ++ "```").
Proof.
  induction x as [|c x IH]; [reflexivity|].
  cbn [Re.count]. destruct (isBacktick c) eqn:E; [discriminate|].
  intros H. cbn [append Re.until_fence].
  assert (Hp : String.prefix "```" (String c (x ++ "```")) = false).
  { cbn [String.prefix]. unfold isBacktick in E.
    destruct (ascii_dec "`" c) as [<-|]; [discriminate|reflexivity]. }
  rewrite Hp, (IH H). reflexivity.
Qed.

Lemma substring_all (s : string) : substring 0 (String.length s) s = s.
Proof. induction s as [|c s IH]; cbn; [reflexivity|now rewrite IH]. Qed.

Lemma after_fence (x : string) :
  substring 3 (String.length ("```" ++ x) - 3) ("```" ++ x) = x.
Proof.
  cbn [append String.length Nat.sub substring].
  rewrite Nat.sub_0_r. apply substring_all.
Qed.

Lemma prefix_fence (x : string) : String.prefix "```" ("```" ++ x) = true.
Proof.
  cbn [append String.prefix].
  destruct (ascii_dec "`" "`") as [_|n]; [|congruence]. now destruct x.
Qed.

Lemma drop_word_tag (tag rest : string) :
  Re.count (fun c => negb (Re.is_word c)) tag = 0%nat ->
  Re.drop_word (tag ++ String JS.newline rest) = String JS.newline rest.
Proof.
  induction tag as [|c tag IH]; [reflexivity|]. cbn [Re.count].
  destruct (Re.is_word c) eqn:E; cbn [negb]; [|discriminate].
  intros H. cbn [append Re.drop_word]. rewrite E. apply IH. exact H.
Qed.

Lemma strip_fence_close_end (code : string) :
  Re.count isBacktick code = 0%nat -> Re.strip_fence_close (code ++ "```") = code.
Proof.
  induction code as [|c code IH]; [reflexivity|].
  cbn [Re.count]. destruct (isBacktick c) eqn:E; [discriminate|].
  intros H. cbn [append Re.strip_fence_close].
  assert (Hn : String.eqb (String c (code ++ "```")) "```" = false).
  { cbn [String.eqb]. unfold isBacktick in E. now rewrite E. }
  rewrite Hn, (IH H). reflexivity.
Qed.

Lemma split_code_skip_all (s : string) :
  Re.split_code (String.length s) s = [EmptyString].
Proof. induction s as [|c s IH]; [reflexivity|exact IH]. Qed.

End Fences.

(** X19: for a fenced block (three backticks, a language tag of word
    characters, a line feed, code without a backtick, three backticks) the
    mixed estimate is the code-aware estimate of the code alone: the fences
    and the tag are not counted. *)
Theorem fenced_block_counts_its_code (tag code : string) :
  Re.count (fun c => negb (Re.is_word c)) tag = 0%nat ->
  Re.count isBacktick code = 0%nat ->
  estimateTokenCountMixed ("```" ++ tag ++ String JS.newline (code ++ "```"))
  = estimateTokenCountForCode code.
Proof.
  intros Htag Hcode.
  set (inner := tag ++ String JS.newline (code ++ "```")).
  assert (Hinner : Re.until_fence inner = Some inner).
  { unfold inner.
    replace (tag ++ String JS.newline (code ++ "```"))
      with ((tag ++ String JS.newline code) ++ "```")
      by (rewrite append_assoc; reflexivity).
    apply until_fence_end. rewrite count_app. cbn [Re.count].
    rewrite (words_have_no_backtick tag Htag), Hcode. reflexivity. }
  assert (Hmatch : Re.match_code ("```" ++ inner) = Some ("```" ++ inner)).
  { unfold Re.match_code. rewrite prefix_fence, after_fence, Hinner. reflexivity. }
  assert (Hsplit : Re.split_code 0 ("```" ++ inner)
                   = [EmptyString; "```" ++ inner; EmptyString]).
  { change ("```" ++ inner) with (String "`" ("``" ++ inner)) at 1.
    cbn [Re.split_code]. change (String "`" ("``" ++ inner)) with ("```" ++ inner).
    rewrite Hmatch.
    replace (String.length ("```" ++ inner) - 1)%nat
      with (String.length ("``" ++ inner))
      by (cbn [append String.length Nat.sub]; reflexivity).
    now rewrite split_code_skip_all. }
  assert (Hopen : Re.strip_fence_open ("```" ++ inner) = code ++ "```").
  { unfold Re.strip_fence_open. rewrite prefix_fence, after_fence.
    unfold inner. rewrite (drop_word_tag tag _ Htag).
    now rewrite Ascii.eqb_refl. }
  unfold estimateTokenCountMixed.
  change (JS.is_empty ("```" ++ inner)) with false. cbv iota.
  rewrite Hsplit. cbn [fold_left].
  change (JS.startsWith "" "```" || JS.startsWith "" "`") with false. cbv iota.
  unfold JS.startsWith at 1. rewrite prefix_fence. cbn [orb].
  rewrite Hopen, (strip_fence_close_end code Hcode).
  change (estimateTokenCount "") with 0%Z. lia.
Qed.

Lemma fenced_block_counts_its_code_witness :
  estimateTokenCountMixed ("```" ++ "js" ++ String JS.newline ("x = 1" ++ "```"))
  = estimateTokenCountForCode "x = 1".
Proof.
  apply (fenced_block_counts_its_code "js" "x = 1"); reflexivity.
Defined.
